(** * simple-todo-api: session-scoped to-do items and the expiry sweep

    A shallow embedding of [src/index.js] (routes, validation schema and the
    cron callback) and of [src/models/todo.js] (the Mongoose model), followed
    by the properties of the session-scoped CRUD lifecycle.

    The libraries the program calls (zod, Mongoose, connect-mongodb-session,
    node-cron, the Promise built-in) are embedded only as far as the program
    uses them; every such definition names the call it stands for. *)

From Stdlib Require Import ZArith Ascii String.
From stdpp Require Import gmap strings list fin_maps.

Local Open Scope Z_scope.

(** ** JSON values

    Request bodies (after [bodyParser.json()]) and response bodies (the
    argument of [res.json]).  A JS object is an association list read by its
    first binding; numbers only occur as [__v] and as ill-typed input, so
    they are kept as integers. *)

#[warnings="-register-all"] Inductive json : Type :=
| JNull
| JBool (b : bool)
| JNum (n : Z)
| JStr (s : string)
| JArr (xs : list json)
| JObj (kvs : list (string * json)).

(** [obj[k]]: [None] stands for [undefined]. *)
Fixpoint jget (k : string) (kvs : list (string * json)) : option json :=
  match kvs with
  | [] => None
  | (k', v) :: rest => if decide (k' = k) then Some v else jget k rest
  end.


(** [obj.k] on an arbitrary value. *)
Definition jfield (k : string) (j : json) : option json :=
  match j with
  | JObj kvs => jget k kvs
  | _ => None
  end.

(** zod's name for the type of a parsed value (its [received] field). *)
Definition zodTypeName (v : option json) : string :=
  match v with
  | None => "undefined"
  | Some JNull => "null"
  | Some (JBool _) => "boolean"
  | Some (JNum _) => "number"
  | Some (JStr _) => "string"
  | Some (JArr _) => "array"
  | Some (JObj _) => "object"
  end.

(** ** Errors and results *)

(** One entry of [ZodError.errors]: the issue code, the path of the
    offending field and the message. *)
Record ZodIssue : Type := mkIssue {
  code : string;
  path : list string;
  message : string
}.

(** The values the program can see thrown. *)
Inductive Error : Type :=
| ZodError (issues : list ZodIssue)
| ValidationError (paths : list string)   (* Mongoose document validation *)
| CastError (cpath : string) (value : string)
| MongoError (reason : string)            (* the store refused or is unreachable *)
| TypeError (reason : string).

Inductive result (A : Type) : Type :=
| Ok (a : A)
| Err (e : Error).
Arguments Ok {A} a.
Arguments Err {A} e.

(** ** The validation schema ([todoSchema], index.js:63-66) *)

Module z.

(** A zod schema: given the path and the value found there ([None] for
    [undefined]) it yields the parsed value or the issues. *)
Definition ZodType (A : Type) : Type :=
  list string -> option json -> list ZodIssue + A.

Definition invalid_type (expected : string) (p : list string) (v : option json) : ZodIssue :=
  {| code := "invalid_type";
     path := p;
     message := match v with
                | None => "Required"
                | Some _ => "Expected " +:+ expected +:+ ", received " +:+ zodTypeName v
                end |}.

(** [z.string().min(1, msg)] *)
Definition string_min1 (msg : string) : ZodType string :=
  fun p v =>
    match v with
    | Some (JStr s) =>
        if decide (s = "")
        then inl [ {| code := "too_small"; path := p; message := msg |} ]
        else inr s
    | _ => inl [ invalid_type "string" p v ]
    end.

(** [z.boolean()] *)
Definition boolean : ZodType bool :=
  fun p v =>
    match v with
    | Some (JBool b) => inr b
    | _ => inl [ invalid_type "boolean" p v ]
    end.

(** [schema.optional()]: [undefined] is accepted as it is. *)
Definition optional {A} (s : ZodType A) : ZodType (option A) :=
  fun p v =>
    match v with
    | None => inr None
    | Some _ => match s p v with
                | inl es => inl es
                | inr a => inr (Some a)
                end
    end.

(** [z.object({k1: s1, k2: s2})] on two keys: the input must be an object
    (not an array, not null); every key of the shape is parsed and the
    issues of all keys are collected; keys outside the shape are dropped
    (zod's default [strip] mode), which is why the output is a pair. *)
Definition object2 {A B} (k1 : string) (s1 : ZodType A)
                         (k2 : string) (s2 : ZodType B) : ZodType (A * B) :=
  fun p v =>
    match v with
    | Some (JObj kvs) =>
        match s1 (p ++ [k1]) (jget k1 kvs), s2 (p ++ [k2]) (jget k2 kvs) with
        | inr a, inr b => inr (a, b)
        | inl es1, inr _ => inl es1
        | inr _, inl es2 => inl es2
        | inl es1, inl es2 => inl (es1 ++ es2)
        end
    | _ => inl [ invalid_type "object" p v ]
    end.

(** [schema.parse(data)]: returns the value or throws [ZodError]. *)
Definition parse {A} (s : ZodType A) (data : json) : result A :=
  match s [] (Some data) with
  | inr a => Ok a
  | inl es => Err (ZodError es)
  end.

End z.

(** The value of [todoSchema.parse]: [{text: string, completed?: boolean}]. *)
Record TodoData : Type := mkTodoData {
  td_text : string;
  td_completed : option bool
}.

(** The value of [todoSchema.partial().parse]:
    [{text?: string, completed?: boolean}]. *)
Record TodoPatch : Type := mkTodoPatch {
  tp_text : option string;
  tp_completed : option bool
}.

Definition todoSchema : z.ZodType TodoData :=
  fun p v =>
    match z.object2 "text" (z.string_min1 "Text is required")
                    "completed" (z.optional z.boolean) p v with
    | inl es => inl es
    | inr (t, c) => inr (mkTodoData t c)
    end.

(** [todoSchema.partial()]: every key of the shape becomes optional. *)
Definition todoSchema_partial : z.ZodType TodoPatch :=
  fun p v =>
    match z.object2 "text" (z.optional (z.string_min1 "Text is required"))
                    "completed" (z.optional (z.optional z.boolean)) p v with
    | inl es => inl es
    | inr (t, c) => inr (mkTodoPatch t (mjoin c))
    end.

(** ** The stores and the effect monad *)

(** A document of the [todos] collection (models/todo.js:3-7) without its
    [_id], which is the key it is stored under.  [versionKey] is Mongoose's
    [__v]. *)
Record TodoDoc : Type := mkTodo {
  text : string;
  completed : bool;
  sessionId : string;
  versionKey : Z
}.

(** A document of the [sessions] collection as the sweep reads it: the
    expiry instant in milliseconds since the epoch ([session.expires]); its
    [_id] is the key. *)
Record SessionDoc : Type := mkSession {
  expires : Z
}.

(** What [console.log] and [console.error] print in the cron callback. *)
Inductive LogLine : Type :=
| CleanedUp (n : nat)            (* "Cleaned up n expired sessions and their todos." *)
| SweepFailed (e : Error).       (* "Error cleaning up expired sessions:" e *)

(** The state the handlers and the sweep run against.  [dbUp = false] is a
    store that cannot serve an operation: every operation sent to it
    rejects. *)
Record World : Type := mkWorld {
  todos : gmap string TodoDoc;
  sessions : gmap string SessionDoc;
  dbUp : bool;
  console : list LogLine
}.

Definition set_todos (f : gmap string TodoDoc -> gmap string TodoDoc) (w : World) : World :=
  {| todos := f (todos w); sessions := sessions w; dbUp := dbUp w; console := console w |}.

Definition set_sessions (f : gmap string SessionDoc -> gmap string SessionDoc) (w : World) : World :=
  {| todos := todos w; sessions := f (sessions w); dbUp := dbUp w; console := console w |}.

Definition add_console (l : LogLine) (w : World) : World :=
  {| todos := todos w; sessions := sessions w; dbUp := dbUp w; console := console w ++ [l] |}.

(** An asynchronous computation: it settles with a value or a thrown error
    (a rejected promise), and in both cases leaves a state behind. *)
Definition M (A : Type) : Type := World -> result A * World.

Definition ret {A} (a : A) : M A := fun w => (Ok a, w).
Definition throw {A} (e : Error) : M A := fun w => (Err e, w).

(** [const x = await m; k x] *)
Definition bind {A B} (m : M A) (k : A -> M B) : M B :=
  fun w => match m w with
           | (Ok a, w') => k a w'
           | (Err e, w') => (Err e, w')
           end.

(** [try { m } catch (e) { h e }] *)
Definition try_catch {A} (m : M A) (h : Error -> M A) : M A :=
  fun w => match m w with
           | (Ok a, w') => (Ok a, w')
           | (Err e, w') => h e w'
           end.

Definition lift {A} (r : result A) : M A := fun w => (r, w).

Declare Scope m_scope.
Delimit Scope m_scope with M.
Notation "x <- m ;; k" := (bind m (fun x => k))
  (at level 100, m at next level, right associativity) : m_scope.
Notation "m ;;; k" := (bind m (fun _ => k))
  (at level 100, right associativity) : m_scope.

(** Every operation sent to the store rejects while it is down. *)
Definition withStore {A} (op : M A) : M A :=
  fun w => if dbUp w then op w else (Err (MongoError "store unavailable"), w).

(** ** ObjectId casting

    Mongoose casts the [_id] of a filter to an ObjectId before it sends the
    query: a string of 24 hexadecimal digits is one, anything else makes the
    query reject with a [CastError].  The key of a document is its ObjectId
    in lower-case hexadecimal. *)

Definition isHexDigit (c : ascii) : bool :=
  let n := N_of_ascii c in
  ((48 <=? n) && (n <=? 57) || (97 <=? n) && (n <=? 102) || (65 <=? n) && (n <=? 70))%N.

Definition lowerHex (c : ascii) : ascii :=
  let n := N_of_ascii c in
  if ((65 <=? n) && (n <=? 70))%N then ascii_of_N (n + 32) else c.

Definition castObjectId (s : string) : option string :=
  let cs := list_ascii_of_string s in
  if (Nat.eqb (List.length cs) 24 && forallb isHexDigit cs)%bool
  then Some (string_of_list_ascii (List.map lowerHex cs))
  else None.

(** ** The model [Todo] (models/todo.js) *)

Module Todo.

(** [doc.toJSON()], what [res.json] serialises: the stored fields, the
    [_id] and the version key.  The schema sets no [toJSON] transform. *)
Definition toJSON (d : string * TodoDoc) : json :=
  JObj [ ("_id", JStr d.1);
         ("text", JStr (text d.2));
         ("completed", JBool (completed d.2));
         ("sessionId", JStr (sessionId d.2));
         ("__v", JNum (versionKey d.2)) ].

(** [new Todo({...todoData, sessionId})]: [completed] takes its schema
    default [false] when absent; the spread can only bring the keys of
    [todoData], and [sessionId] is written after it.  [oid] is the
    ObjectId the constructor draws for the document. *)
Definition new (oid : string) (todoData : TodoData) (sid : string) : string * TodoDoc :=
  (oid, {| text := td_text todoData;
           completed := default false (td_completed todoData);
           sessionId := sid;
           versionKey := 0 |}).

(** The [required: true] validators of [text] and [sessionId]: for a
    String path the empty string does not satisfy [required]. *)
Definition validate (d : TodoDoc) : list string :=
  (if decide (text d = "") then ["text"] else []) ++
  (if decide (sessionId d = "") then ["sessionId"] else []).

(** [todo.save()] of a new document: validation, then the insert, which
    the store refuses when the [_id] is taken. *)
Definition save (d : string * TodoDoc) : M unit :=
  match validate d.2 with
  | [] =>
      withStore (fun w =>
        match todos w !! d.1 with
        | Some _ => (Err (MongoError "E11000 duplicate key"), w)
        | None => (Ok tt, set_todos (insert d.1 d.2) w)
        end)
  | paths => throw (ValidationError paths)
  end.

(** [Todo.find({sessionId})] *)
Definition find (sid : string) : M (list (string * TodoDoc)) :=
  withStore (fun w =>
    (Ok (map_to_list (filter (fun kd => sessionId kd.2 = sid) (todos w))), w)).

(** The [$set] Mongoose builds from the parsed patch: only the keys that
    are present. *)
Definition applyPatch (p : TodoPatch) (d : TodoDoc) : TodoDoc :=
  {| text := default (text d) (tp_text p);
     completed := default (completed d) (tp_completed p);
     sessionId := sessionId d;
     versionKey := versionKey d |}.

(** The document a filter [{_id, sessionId}] selects. *)
Definition findOne (oid sid : string) (w : World) : option TodoDoc :=
  match todos w !! oid with
  | Some d => if decide (sessionId d = sid) then Some d else None
  | None => None
  end.

(** [Todo.findOneAndUpdate({_id, sessionId}, patch, {new: true})] *)
Definition findOneAndUpdate (id sid : string) (p : TodoPatch) : M (option (string * TodoDoc)) :=
  match castObjectId id with
  | None => throw (CastError "_id" id)
  | Some oid =>
      withStore (fun w =>
        match findOne oid sid w with
        | Some d => (Ok (Some (oid, applyPatch p d)),
                     set_todos (insert oid (applyPatch p d)) w)
        | None => (Ok None, w)
        end)
  end.

(** [Todo.findOneAndDelete({_id, sessionId})] *)
Definition findOneAndDelete (id sid : string) : M (option (string * TodoDoc)) :=
  match castObjectId id with
  | None => throw (CastError "_id" id)
  | Some oid =>
      withStore (fun w =>
        match findOne oid sid w with
        | Some d => (Ok (Some (oid, d)), set_todos (delete oid) w)
        | None => (Ok None, w)
        end)
  end.

(** [Todo.deleteMany({sessionId})] only builds a query.  A Mongoose query
    is sent to the store when it is executed ([exec], [then] or [await] on
    the query itself). *)
Inductive Query : Type :=
| DeleteMany (filter_sessionId : string).

Definition deleteMany (sid : string) : Query := DeleteMany sid.

Definition exec (q : Query) : M unit :=
  match q with
  | DeleteMany sid =>
      withStore (fun w =>
        (Ok tt, set_todos (filter (fun kd => sessionId kd.2 <> sid)) w))
  end.

End Todo.

(** ** Requests and responses *)

(** A request as a handler sees it, after the JSON body parser and the
    session middleware: [req.sessionID] (which [req.session.id] aliases),
    [req.params.id] and [req.body]. *)
Record Request : Type := mkRequest {
  sessionID : string;
  params_id : string;
  body : json
}.

Record Response : Type := mkResponse {
  status : Z;
  payload : json
}.

(** [res.json(b)]: status 200 unless [res.status] was called first. *)
Definition res_json (b : json) : Response := {| status := 200; payload := b |}.
Definition res_status_json (s : Z) (b : json) : Response := {| status := s; payload := b |}.

Definition issueJSON (i : ZodIssue) : json :=
  JObj [ ("code", JStr (code i));
         ("path", JArr (JStr <$> path i));
         ("message", JStr (message i)) ].

(** [e.errors]: the issue array of a [ZodError], the per-path object of a
    Mongoose [ValidationError], [undefined] on any other error. *)
Definition errors (e : Error) : option json :=
  match e with
  | ZodError issues => Some (JArr (issueJSON <$> issues))
  | ValidationError paths =>
      Some (JObj ((fun p => (p, JObj [("kind", JStr "required"); ("path", JStr p)])) <$> paths))
  | _ => None
  end.

(** [{ ok: false, error: e.errors }] as serialised: a key whose value is
    [undefined] is left out. *)
Definition errorBody (e : Error) : json :=
  match errors e with
  | Some j => JObj [("ok", JBool false); ("error", j)]
  | None => JObj [("ok", JBool false)]
  end.

Definition notFound : Response :=
  res_status_json 404 (JObj [("ok", JBool false); ("error", JStr "not_found")]).

(** ** The routes (index.js:119-249)

    A handler is an [async] function: [Ok r] is the response it sent, [Err e]
    is a rejection that left the handler without any response being sent. *)

Local Open Scope m_scope.

(** [app.get("/api/todos", ...)] *)
Definition app_get (req : Request) : M Response :=
  if decide (sessionID req = "") then
    ret (res_json (JObj [("ok", JBool true); ("result", JArr [])]))
  else
    todos <- Todo.find (sessionID req);;
    ret (res_json (JObj [("ok", JBool true); ("result", JArr (Todo.toJSON <$> todos))])).

(** [app.post("/api/todos", ...)]; [oid] is the ObjectId that [new Todo]
    draws. *)
Definition app_post (oid : string) (req : Request) : M Response :=
  try_catch
    (todoData <- lift (z.parse todoSchema (body req));;
     let todo := Todo.new oid todoData (sessionID req) in
     Todo.save todo;;;
     ret (res_json (JObj [("ok", JBool true); ("result", Todo.toJSON todo)])))
    (fun e => ret (res_status_json 400 (errorBody e))).

(** [app.patch("/api/todos/:id", ...)] *)
Definition app_patch (req : Request) : M Response :=
  try_catch
    (todoData <- lift (z.parse todoSchema_partial (body req));;
     todo <- Todo.findOneAndUpdate (params_id req) (sessionID req) todoData;;
     match todo with
     | None => ret notFound
     | Some d => ret (res_json (JObj [("ok", JBool true); ("result", Todo.toJSON d)]))
     end)
    (fun e => ret (res_status_json 400 (errorBody e))).

(** [app.delete("/api/todos/:id", ...)] *)
Definition app_delete (req : Request) : M Response :=
  todo <- Todo.findOneAndDelete (params_id req) (sessionID req);;
  match todo with
  | None => ret notFound
  | Some _ => ret (res_json (JObj [("ok", JBool true); ("result", JNull)]))
  end.

(** The four operations of the Todo service and the route each one is
    served by. *)
Inductive Operation : Type :=
| List
| Create (oid : string)
| Update
| Delete.

Definition handle (op : Operation) (req : Request) : M Response :=
  match op with
  | List => app_get req
  | Create oid => app_post oid req
  | Update => app_patch req
  | Delete => app_delete req
  end.

(** ** The expiry sweep (index.js:253-283) *)

(** The value [undefined]. *)
Inductive undefined : Type :=
| Undefined.

Module store.

(** [store.all(cb)]: every document of the [sessions] collection. *)
Definition all : M (list (string * SessionDoc)) :=
  withStore (fun w => (Ok (map_to_list (sessions w)), w)).

(** [store.destroy(sid)] without a callback.  The session store's
    [destroy] is callback-style: it sends the delete of the record to the
    store and returns [undefined].  A delete the store cannot serve removes
    nothing and is reported on the store's [error] event, not to the
    caller. *)
Definition destroy (sid : string) : M undefined :=
  fun w => (Ok Undefined, if dbUp w then set_sessions (delete sid) w else w).

End store.

Module Promise.

(** [Promise(executor)] called as a function, without [new]: the
    constructor throws a [TypeError] before it looks at the executor. *)
Definition call {A} (executor : M A) : M A :=
  throw (TypeError "Promise constructor cannot be invoked without 'new'").

(** [Promise.all(ps)]: every promise of the array has been started and
    runs to its end; the result rejects with a rejection of one of them. *)
Fixpoint all (ps : list (M unit)) : M unit :=
  match ps with
  | [] => ret tt
  | p :: rest =>
      fun w =>
        let (r, w1) := p w in
        let (rs, w2) := all rest w1 in
        (match r with Err e => Err e | Ok _ => rs end, w2)
  end.

End Promise.

Definition console_log (l : LogLine) : M unit := fun w => (Ok tt, add_console l w).

(** [getAllSessions] (index.js:279-283) *)
Definition getAllSessions : M (list (string * SessionDoc)) :=
  Promise.call store.all.

(** [x.then(arg)] where [x] is [undefined]: reading a property of
    [undefined] throws a [TypeError]; the argument is not evaluated and no
    promise comes back. *)
Definition undefined_then (x : undefined) (arg : Todo.Query) : M (M unit) :=
  throw (TypeError "Cannot read properties of undefined (reading 'then')").

(** The arrow function mapped over the expired ids (index.js:266-267):
    [(sessionId) => store.destroy(sessionId).then(Todo.deleteMany({ sessionId }))].
    The delete of the session record has been sent when [.then] is read off
    the [undefined] that [store.destroy] returned, so every call throws. *)
Definition cleanup (sessionId : string) : M (M unit) :=
  x <- store.destroy sessionId;;
  undefined_then x (Todo.deleteMany sessionId).

Module Array.

(** [xs.map(f)]: [f] is called on the elements in order; an exception
    thrown by a call ends the loop and leaves [map]. *)
Fixpoint map {A B} (f : A -> M B) (xs : list A) : M (list B) :=
  match xs with
  | [] => ret []
  | x :: rest => y <- f x;; ys <- map f rest;; ret (y :: ys)
  end.

End Array.

(** [Promise.all(expiredSessionIds.map(...))] (index.js:265-269): the array
    of promises is built first, then awaited. *)
Definition cleanupAll (ids : list string) : M unit :=
  promises <- Array.map cleanup ids;;
  Promise.all promises.

(** [Object.values(sessions).filter(expired before now).map(s => s._id)]
    (index.js:258-263) *)
Definition expiredSessionIds (now : Z) (sessions : list (string * SessionDoc)) : list string :=
  fst <$> filter (fun s => expires s.2 < now) sessions.

Section Sweep.

(** The call on index.js:255, [getAllSessions()]. *)
Variable enumerate : M (list (string * SessionDoc)).

(** The callback given to [nodeCron.schedule]; [now] is [new Date()]. *)
Definition sweep (now : Z) : M unit :=
  try_catch
    (sessions <- enumerate;;
     let ids := expiredSessionIds now sessions in
     cleanupAll ids;;;
     console_log (CleanedUp (length ids)))
    (fun error => console_log (SweepFailed error)).

(** The scheduler: one run of the callback per tick.  A callback that
    rejects is an unhandled rejection, which ends the process and with it
    the schedule; the value counts the runs that took place. *)
Fixpoint schedule (ticks : list Z) : M nat :=
  match ticks with
  | [] => ret O
  | now :: rest => sweep now;;; n <- schedule rest;; ret (S n)
  end.

End Sweep.

(** [nodeCron.schedule("0 * * * *", async () => {...})] as written. *)
Definition cron_callback (now : Z) : M unit := sweep getAllSessions now.

Definition cron_schedule (ticks : list Z) : M nat := schedule getAllSessions ticks.

(** ** Reading responses *)

(** The Items serialised in a response body [{ok, result}]: the elements of
    an array result, or the single object result. *)
Definition response_items (r : Response) : list json :=
  match jfield "result" (payload r) with
  | Some (JArr xs) => xs
  | Some (JObj kvs) => [JObj kvs]
  | _ => []
  end.

(** The issue paths reported in an error body [{ok: false, error: [...]}]. *)
Definition reported_paths (r : Response) : list json :=
  match jfield "error" (payload r) with
  | Some (JArr issues) => omap (jfield "path") issues
  | _ => []
  end.




(** The body has no usable [text]: the key is absent or holds [""]. *)
Definition text_missing_or_empty (b : json) : Prop :=
  exists kvs, b = JObj kvs /\ (jget "text" kvs = None \/ jget "text" kvs = Some (JStr "")).

(** ** Sample states and requests *)

Module Sample.

Definition idA : string := "65f0a1b2c3d4e5f6a7b8c9d0".
Definition idB : string := "65f0a1b2c3d4e5f6a7b8c9d1".
Definition idC : string := "65f0a1b2c3d4e5f6a7b8c9d2".

Definition empty : World :=
  {| todos := ∅; sessions := ∅; dbUp := true; console := [] |}.

(** Session [old] expired at 1000 and owns two items; session [live]
    expires at 9000 and owns one. *)
Definition swept : World :=
  {| todos := {[ idA := mkTodo "water plants" false "old" 0;
                 idB := mkTodo "pay rent" true "old" 0;
                 idC := mkTodo "buy milk" false "live" 0 ]};
     sessions := {[ "old" := mkSession 1000; "live" := mkSession 9000 ]};
     dbUp := true;
     console := [] |}.

(** One item, owned by session [s1]. *)
Definition one : World :=
  {| todos := {[ idA := mkTodo "Buy milk" false "s1" 0 ]};
     sessions := ∅; dbUp := true; console := [] |}.

Definition buyMilk : Request :=
  {| sessionID := "s1"; params_id := ""; body := JObj [("text", JStr "Buy milk")] |}.

Definition emptyText : Request :=
  {| sessionID := "s1"; params_id := ""; body := JObj [("text", JStr "")] |}.

Definition forged : Request :=
  {| sessionID := "s1"; params_id := "";
     body := JObj [("sessionId", JStr "s2"); ("text", JStr "Buy milk")] |}.

Definition complete (sid : string) : Request :=
  {| sessionID := sid; params_id := idA; body := JObj [("completed", JBool true)] |}.

Definition blankPatch (sid : string) : Request :=
  {| sessionID := sid; params_id := idA; body := JObj [("text", JStr "")] |}.

Definition remove (sid id : string) : Request :=
  {| sessionID := sid; params_id := id; body := JObj [] |}.

End Sample.

(** ** Proof automation for the schema *)

Ltac unfold_zod :=
  unfold z.parse, todoSchema, todoSchema_partial, z.object2, z.optional,
         z.string_min1, z.boolean, z.invalid_type.

Ltac zod_cases kvs :=
  destruct (jget "text" kvs) as [[]|];
  destruct (jget "completed" kvs) as [[]|];
  repeat case_decide; simpl.

(** * Properties *)

(** ** The effect monad *)

Lemma bind_ok {A B} (m : M A) (k : A -> M B) w a w' :
  m w = (Ok a, w') -> bind m k w = k a w'.
Proof. intros E. unfold bind. now rewrite E. Qed.

Lemma bind_err {A B} (m : M A) (k : A -> M B) w e w' :
  m w = (Err e, w') -> bind m k w = (Err e, w').
Proof. intros E. unfold bind. now rewrite E. Qed.

Lemma withStore_up {A} (op : M A) w : dbUp w = true -> withStore op w = op w.
Proof. intros E. unfold withStore. now rewrite E. Qed.

Lemma withStore_down {A} (op : M A) w :
  dbUp w = false -> withStore op w = (Err (MongoError "store unavailable"), w).
Proof. intros E. unfold withStore. now rewrite E. Qed.

(** ** The sweep *)

(** Every call of the arrow function throws, after the delete of the
    session record has been sent. *)
Lemma cleanup_throws sid w :
  cleanup sid w =
    (Err (TypeError "Cannot read properties of undefined (reading 'then')"),
     if dbUp w then set_sessions (delete sid) w else w).
Proof. reflexivity. Qed.


(** The loop over the expired ids ends at its first call. *)
Lemma cleanupAll_cons sid ids w :
  cleanupAll (sid :: ids) w =
    (Err (TypeError "Cannot read properties of undefined (reading 'then')"),
     if dbUp w then set_sessions (delete sid) w else w).
Proof. reflexivity. Qed.

Section SweepFacts.

Variable enumerate : M (list (string * SessionDoc)).

(** A call of the arrow function never reaches the [todos] collection:
    the query it names is not even built. *)
Lemma cleanup_keeps_todos sid w : todos (cleanup sid w).2 = todos w.
Proof. rewrite cleanup_throws. cbn [snd]. destruct (dbUp w); reflexivity. Qed.

Lemma cleanup_keeps_console sid w : console (cleanup sid w).2 = console w.
Proof. rewrite cleanup_throws. cbn [snd]. destruct (dbUp w); reflexivity. Qed.

Lemma all_cleanups_keep_todos ids w :
  todos (cleanupAll ids w).2 = todos w.
Proof.
  destruct ids as [|sid ids]; [reflexivity|].
  rewrite cleanupAll_cons. cbn [snd]. destruct (dbUp w); reflexivity.
Qed.

(** The callback always fulfils, whatever happened inside it. *)
Lemma sweep_fulfils now w : (sweep enumerate now w).1 = Ok tt.
Proof.
  unfold sweep, try_catch.
  match goal with |- context [match ?b with _ => _ end] => destruct b as [[[]|e] w'] end;
    reflexivity.
Qed.

(** Whatever the enumeration returns, a run of the callback leaves the
    [todos] collection as the enumeration left it. *)
Lemma sweep_keeps_todos now w :
  (forall w0, todos (enumerate w0).2 = todos w0) ->
  todos (sweep enumerate now w).2 = todos w.
Proof.
  intros Henum. unfold sweep, try_catch, bind.
  specialize (Henum w).
  destruct (enumerate w) as [[ss|e] w1]; simpl in Henum; [|simpl; congruence].
  pose proof (all_cleanups_keep_todos (expiredSessionIds now ss) w1) as H2.
  cbn zeta. destruct (cleanupAll _ w1) as [[[]|e] w2]; simpl in *; congruence.
Qed.

Lemma schedule_runs_every_tick ticks w :
  (schedule enumerate ticks w).1 = Ok (length ticks).
Proof.
  revert w. induction ticks as [|now ticks IH]; intros w; simpl; [reflexivity|].
  unfold bind at 1.
  pose proof (sweep_fulfils now w) as Hs.
  destruct (sweep enumerate now w) as [r w1]. simpl in Hs. subst r.
  unfold bind. specialize (IH w1).
  destruct (schedule enumerate ticks w1) as [r w2]. simpl in IH. subst r.
  reflexivity.
Qed.

End SweepFacts.

(** Executing the query is what would remove the items of a session. *)
Lemma exec_deleteMany_removes sid w k d :
  dbUp w = true ->
  todos (Todo.exec (Todo.deleteMany sid) w).2 !! k = Some d -> sessionId d <> sid.
Proof.
  intros Hup. unfold Todo.exec, Todo.deleteMany. rewrite withStore_up by assumption.
  simpl. intros H. now apply map_lookup_filter_Some in H as [_ H].
Qed.

(** Even with an enumeration that succeeds ([store.all] itself), a run of
    the callback deletes no item: the query is never built, let alone
    executed. *)
Lemma sweep_after_enumeration_keeps_todos now w :
  todos (sweep store.all now w).2 = todos w.
Proof.
  apply sweep_keeps_todos. intros w0.
  unfold store.all, withStore. destruct (dbUp w0); reflexivity.
Qed.

(** [getAllSessions] rejects in every state and touches nothing. *)
Lemma getAllSessions_throws w :
  getAllSessions w =
    (Err (TypeError "Promise constructor cannot be invoked without 'new'"), w).
Proof. reflexivity. Qed.

(** A run of the callback as written: one error line, nothing else. *)
Lemma cron_callback_inert now w :
  cron_callback now w =
    (Ok tt,
     add_console
       (SweepFailed (TypeError "Promise constructor cannot be invoked without 'new'")) w).
Proof. reflexivity. Qed.

(** ** Claims about the sweep *)

(** C1 (the code departs from the claim).  The claim: one run of the
    scheduled callback removes every expired session and all of its items.
    The code: in the state [Sample.swept], where session [old] expired at 1000
    and owns two items, a run at instant 5000 leaves the session record and
    both items in their stores; the only effect is the error line on the
    console, because [getAllSessions] throws before any store is read. *)
Theorem cron_callback_keeps_expired_session :
  let w' := (cron_callback 5000 Sample.swept).2 in
  (cron_callback 5000 Sample.swept).1 = Ok tt /\
  sessions w' !! "old" = Some (mkSession 1000) /\
  todos w' !! Sample.idA = Some (mkTodo "water plants" false "old" 0) /\
  todos w' !! Sample.idB = Some (mkTodo "pay rent" true "old" 0) /\
  console w' =
    [SweepFailed (TypeError "Promise constructor cannot be invoked without 'new'")].
Proof.
  rewrite cron_callback_inert. cbn [fst snd add_console todos sessions console].
  repeat split; vm_compute; reflexivity.
Qed.

(** C9.  Every error raised during a run of the sweep callback is caught
    inside the callback and only logged.  Whatever the enumeration of the
    sessions does (reject, or return sessions whose clean-up then throws),
    the callback fulfils and its last act is one console line: the error
    when there was one, the count otherwise.  No run rejects, so a schedule
    of any number of ticks runs the callback at every one of them; this holds
    for the callback as written too. *)
Theorem sweep_errors_only_logged :
  forall (enumerate : M (list (string * SessionDoc))) (now : Z) (ticks : list Z) (w : World),
    (sweep enumerate now w).1 = Ok tt /\
    match enumerate w with
    | (Err e, w1) => sweep enumerate now w = (Ok tt, add_console (SweepFailed e) w1)
    | (Ok ss, w1) =>
        match cleanupAll (expiredSessionIds now ss) w1 with
        | (Err e, w2) => sweep enumerate now w = (Ok tt, add_console (SweepFailed e) w2)
        | (Ok _, w2) =>
            sweep enumerate now w =
              (Ok tt, add_console (CleanedUp (length (expiredSessionIds now ss))) w2)
        end
    end /\
    (schedule enumerate ticks w).1 = Ok (length ticks) /\
    (cron_callback now w).1 = Ok tt /\
    (cron_schedule ticks w).1 = Ok (length ticks).
Proof.
  intros enumerate now ticks w.
  split; [apply sweep_fulfils|].
  split.
  - unfold sweep, try_catch, bind.
    destruct (enumerate w) as [[ss|e] w1]; [|reflexivity].
    cbn zeta. destruct (cleanupAll _ w1) as [[[]|e] w2]; reflexivity.
  - split; [apply schedule_runs_every_tick|].
    split; [apply sweep_fulfils | apply schedule_runs_every_tick].
Qed.

(** ** The validation schema *)

(** What a body that passes [todoSchema] looks like. *)
Lemma todoSchema_parse_ok b d :
  z.parse todoSchema b = Ok d ->
  exists kvs,
    b = JObj kvs /\ jget "text" kvs = Some (JStr (td_text d)) /\ td_text d <> "" /\
    jget "completed" kvs = JBool <$> td_completed d.
Proof.
  unfold_zod. destruct b as [| | | | |kvs]; simpl; try discriminate.
  intros H. exists kvs. split; [reflexivity|]. revert H.
  zod_cases kvs; intros Hp; try discriminate; simplify_eq; simpl; auto.
Qed.

(** A body that passes [todoSchema.partial()]. *)
Lemma todoSchema_partial_parse_ok b p :
  z.parse todoSchema_partial b = Ok p ->
  exists kvs,
    b = JObj kvs /\ jget "text" kvs = JStr <$> tp_text p /\ tp_text p <> Some "" /\
    jget "completed" kvs = JBool <$> tp_completed p.
Proof.
  unfold_zod. destruct b as [| | | | |kvs]; simpl; try discriminate.
  intros H. exists kvs. split; [reflexivity|]. revert H.
  zod_cases kvs; intros Hp; try discriminate; simplify_eq; simpl;
    repeat split; auto; congruence.
Qed.

(** [schema.parse] throws nothing but a [ZodError]. *)
Lemma todoSchema_parse_err b e :
  z.parse todoSchema b = Err e -> exists issues, e = ZodError issues /\ issues <> [].
Proof.
  unfold_zod. destruct b as [| | | | |kvs]; simpl;
    try (intros H; simplify_eq; eexists; split; [reflexivity|discriminate]).
  zod_cases kvs; intros Hp; simplify_eq; eexists; (split; [reflexivity|discriminate]).
Qed.

Lemma todoSchema_partial_parse_err b e :
  z.parse todoSchema_partial b = Err e -> exists issues, e = ZodError issues /\ issues <> [].
Proof.
  unfold_zod. destruct b as [| | | | |kvs]; simpl;
    try (intros H; simplify_eq; eexists; split; [reflexivity|discriminate]).
  zod_cases kvs; intros Hp; simplify_eq; eexists; (split; [reflexivity|discriminate]).
Qed.

(** A missing or empty [text] is reported with an issue whose path is
    [["text"]]. *)
Lemma todoSchema_rejects_bad_text b :
  text_missing_or_empty b ->
  exists issues i,
    z.parse todoSchema b = Err (ZodError issues) /\ i ∈ issues /\ path i = ["text"].
Proof.
  intros (kvs & -> & [H|H]); unfold_zod; simpl; rewrite H;
    destruct (jget "completed" kvs) as [[]|]; simpl;
    eexists; eexists; (split; [reflexivity|]); (split; [apply list_elem_of_here|]);
    reflexivity.
Qed.

(** Only the keys of the shape are read: two objects that agree on [text]
    and [completed] parse alike, whatever else they carry. *)
Lemma todoSchema_reads_shape_only kvs kvs' :
  jget "text" kvs = jget "text" kvs' ->
  jget "completed" kvs = jget "completed" kvs' ->
  z.parse todoSchema (JObj kvs) = z.parse todoSchema (JObj kvs').
Proof. intros H1 H2. unfold_zod. simpl. now rewrite H1, H2. Qed.

Lemma todoSchema_partial_reads_shape_only kvs kvs' :
  jget "text" kvs = jget "text" kvs' ->
  jget "completed" kvs = jget "completed" kvs' ->
  z.parse todoSchema_partial (JObj kvs) = z.parse todoSchema_partial (JObj kvs').
Proof. intros H1 H2. unfold_zod. simpl. now rewrite H1, H2. Qed.

(** ** The model and the routes *)

Lemma find_elem (m : gmap string TodoDoc) sid k d :
  (k, d) ∈ map_to_list (filter (fun kd : string * TodoDoc => sessionId kd.2 = sid) m)
  <-> m !! k = Some d /\ sessionId d = sid.
Proof. rewrite elem_of_map_to_list, map_lookup_filter_Some. reflexivity. Qed.

Lemma findOne_owned oid sid w d :
  todos w !! oid = Some d -> sessionId d = sid -> Todo.findOne oid sid w = Some d.
Proof. intros H1 H2. unfold Todo.findOne. rewrite H1. now rewrite decide_True. Qed.

Lemma findOne_foreign oid sid w d :
  todos w !! oid = Some d -> sessionId d <> sid -> Todo.findOne oid sid w = None.
Proof. intros H1 H2. unfold Todo.findOne. rewrite H1. now rewrite decide_False. Qed.

Lemma findOne_inv oid sid w d :
  Todo.findOne oid sid w = Some d -> todos w !! oid = Some d /\ sessionId d = sid.
Proof.
  unfold Todo.findOne. destruct (todos w !! oid) as [d'|]; [|discriminate].
  case_decide; [|discriminate]. intros [= ->]. auto.
Qed.

Lemma validate_new oid data sid :
  td_text data <> "" -> sid <> "" -> Todo.validate (Todo.new oid data sid).2 = [].
Proof.
  intros H1 H2. unfold Todo.validate, Todo.new. simpl.
  now rewrite !decide_False.
Qed.

(** *** GET *)

Lemma app_get_world req w : (app_get req w).2 = w.
Proof.
  unfold app_get. case_decide; [reflexivity|].
  unfold bind, Todo.find, withStore. destruct (dbUp w); reflexivity.
Qed.

Lemma app_get_up req w :
  dbUp w = true -> sessionID req <> "" ->
  app_get req w =
    (Ok (res_json (JObj [("ok", JBool true);
                         ("result", JArr (Todo.toJSON <$>
                            map_to_list (filter (fun kd : string * TodoDoc =>
                                                   sessionId kd.2 = sessionID req) (todos w))))])),
     w).
Proof.
  intros Hup Hsid. unfold app_get. rewrite decide_False by assumption.
  unfold bind, Todo.find. rewrite withStore_up by assumption. reflexivity.
Qed.

(** Every item a List response carries is a stored document of the
    caller's session. *)
Lemma app_get_items req w r w' j :
  app_get req w = (Ok r, w') -> j ∈ response_items r ->
  exists k d, j = Todo.toJSON (k, d) /\ todos w !! k = Some d /\ sessionId d = sessionID req.
Proof.
  unfold app_get. case_decide as Hsid.
  - intros [= <- <-]. cbn. intros Hj. inversion Hj.
  - unfold bind, Todo.find, withStore. destruct (dbUp w); [|discriminate].
    intros [= <- <-]. cbn. intros Hj.
    apply list_elem_of_fmap in Hj as ([k d] & -> & Hkd).
    apply find_elem in Hkd as [H1 H2]. eauto.
Qed.

(** *** POST *)

Lemma app_post_invalid oid req w e :
  z.parse todoSchema (body req) = Err e ->
  app_post oid req w = (Ok (res_status_json 400 (errorBody e)), w).
Proof. intros H. unfold app_post, try_catch, bind, lift. now rewrite H. Qed.

Lemma app_post_valid oid req w data :
  z.parse todoSchema (body req) = Ok data ->
  dbUp w = true -> sessionID req <> "" -> todos w !! oid = None ->
  app_post oid req w =
    (Ok (res_json (JObj [("ok", JBool true);
                         ("result", Todo.toJSON (Todo.new oid data (sessionID req)))])),
     set_todos (insert oid (Todo.new oid data (sessionID req)).2) w).
Proof.
  intros Hp Hup Hsid Hfresh.
  destruct (todoSchema_parse_ok _ _ Hp) as (kvs & _ & _ & Ht & _).
  unfold app_post, try_catch, bind, lift. rewrite Hp.
  unfold Todo.save. rewrite validate_new by assumption.
  rewrite withStore_up by assumption. cbn [fst Todo.new]. now rewrite Hfresh.
Qed.

(** Create always answers, and it writes at most the one document it
    built. *)
Lemma app_post_cases oid req w :
  exists r,
    (app_post oid req w).1 = Ok r /\
    ((app_post oid req w).2 = w /\ status r = 400 \/
     exists data,
       z.parse todoSchema (body req) = Ok data /\ todos w !! oid = None /\
       r = res_json (JObj [("ok", JBool true);
                           ("result", Todo.toJSON (Todo.new oid data (sessionID req)))]) /\
       (app_post oid req w).2 =
         set_todos (insert oid (Todo.new oid data (sessionID req)).2) w).
Proof.
  unfold app_post, try_catch, bind, lift.
  destruct (z.parse todoSchema (body req)) as [data|e] eqn:Hp;
    [|eexists; split; [reflexivity|left; split; reflexivity]].
  unfold Todo.save.
  destruct (Todo.validate (Todo.new oid data (sessionID req)).2) as [|p ps];
    [|eexists; split; [reflexivity|left; split; reflexivity]].
  unfold withStore. destruct (dbUp w);
    [|eexists; split; [reflexivity|left; split; reflexivity]].
  cbn [fst Todo.new]. destruct (todos w !! oid) eqn:Hl;
    [eexists; split; [reflexivity|left; split; reflexivity]|].
  eexists; split; [reflexivity|]. right. exists data. auto.
Qed.

(** *** PATCH *)

Lemma app_patch_invalid req w e :
  z.parse todoSchema_partial (body req) = Err e ->
  app_patch req w = (Ok (res_status_json 400 (errorBody e)), w).
Proof. intros H. unfold app_patch, try_catch, bind, lift. now rewrite H. Qed.

Lemma app_patch_owned req w p oid d :
  z.parse todoSchema_partial (body req) = Ok p ->
  castObjectId (params_id req) = Some oid -> dbUp w = true ->
  todos w !! oid = Some d -> sessionId d = sessionID req ->
  app_patch req w =
    (Ok (res_json (JObj [("ok", JBool true);
                         ("result", Todo.toJSON (oid, Todo.applyPatch p d))])),
     set_todos (insert oid (Todo.applyPatch p d)) w).
Proof.
  intros Hp Hc Hup Hl Hs. unfold app_patch, try_catch, bind, lift. rewrite Hp.
  unfold Todo.findOneAndUpdate. rewrite Hc, withStore_up by assumption.
  now rewrite (findOne_owned _ _ _ _ Hl Hs).
Qed.

Lemma app_patch_unmatched req w p oid :
  z.parse todoSchema_partial (body req) = Ok p ->
  castObjectId (params_id req) = Some oid -> dbUp w = true ->
  Todo.findOne oid (sessionID req) w = None ->
  app_patch req w = (Ok notFound, w).
Proof.
  intros Hp Hc Hup Hf. unfold app_patch, try_catch, bind, lift. rewrite Hp.
  unfold Todo.findOneAndUpdate. rewrite Hc, withStore_up by assumption.
  now rewrite Hf.
Qed.

(** Update always answers; when it writes, it writes the patched version
    of a document of the caller's session under the same key. *)
Lemma app_patch_cases req w :
  exists r,
    (app_patch req w).1 = Ok r /\
    ((app_patch req w).2 = w /\ status r <> 200 \/
     exists p oid d,
       z.parse todoSchema_partial (body req) = Ok p /\
       castObjectId (params_id req) = Some oid /\
       todos w !! oid = Some d /\ sessionId d = sessionID req /\
       r = res_json (JObj [("ok", JBool true);
                           ("result", Todo.toJSON (oid, Todo.applyPatch p d))]) /\
       (app_patch req w).2 = set_todos (insert oid (Todo.applyPatch p d)) w).
Proof.
  unfold app_patch, try_catch, bind, lift.
  destruct (z.parse todoSchema_partial (body req)) as [p|e] eqn:Hp;
    [|eexists; split; [reflexivity|left; split; [reflexivity|discriminate]]].
  unfold Todo.findOneAndUpdate.
  destruct (castObjectId (params_id req)) as [oid|] eqn:Hc;
    [|eexists; split; [reflexivity|left; split; [reflexivity|discriminate]]].
  unfold withStore. destruct (dbUp w);
    [|eexists; split; [reflexivity|left; split; [reflexivity|discriminate]]].
  destruct (Todo.findOne oid (sessionID req) w) as [d|] eqn:Hf;
    [|eexists; split; [reflexivity|left; split; [reflexivity|discriminate]]].
  apply findOne_inv in Hf as [Hl Hs].
  eexists; split; [reflexivity|]. right. exists p, oid, d. auto 10.
Qed.

(** *** DELETE *)

Lemma app_delete_owned req w oid d :
  castObjectId (params_id req) = Some oid -> dbUp w = true ->
  todos w !! oid = Some d -> sessionId d = sessionID req ->
  app_delete req w =
    (Ok (res_json (JObj [("ok", JBool true); ("result", JNull)])),
     set_todos (delete oid) w).
Proof.
  intros Hc Hup Hl Hs. unfold app_delete, bind, Todo.findOneAndDelete.
  rewrite Hc, withStore_up by assumption.
  now rewrite (findOne_owned _ _ _ _ Hl Hs).
Qed.

Lemma app_delete_unmatched req w oid :
  castObjectId (params_id req) = Some oid -> dbUp w = true ->
  Todo.findOne oid (sessionID req) w = None ->
  app_delete req w = (Ok notFound, w).
Proof.
  intros Hc Hup Hf. unfold app_delete, bind, Todo.findOneAndDelete.
  rewrite Hc, withStore_up by assumption. now rewrite Hf.
Qed.

(** A rejection of the query leaves the handler as it is: nothing in
    [app.delete] catches it. *)
Lemma app_delete_bad_id req w :
  castObjectId (params_id req) = None ->
  app_delete req w = (Err (CastError "_id" (params_id req)), w).
Proof.
  intros Hc. unfold app_delete, bind, Todo.findOneAndDelete. now rewrite Hc.
Qed.

Lemma app_delete_store_down req w oid :
  castObjectId (params_id req) = Some oid -> dbUp w = false ->
  app_delete req w = (Err (MongoError "store unavailable"), w).
Proof.
  intros Hc Hd. unfold app_delete, bind, Todo.findOneAndDelete.
  rewrite Hc, withStore_down by assumption. reflexivity.
Qed.

Lemma app_get_store_down req w :
  sessionID req <> "" -> dbUp w = false ->
  app_get req w = (Err (MongoError "store unavailable"), w).
Proof.
  intros Hs Hd. unfold app_get. rewrite decide_False by assumption.
  unfold bind, Todo.find. rewrite withStore_down by assumption. reflexivity.
Qed.

(** When Delete writes, it removes a document of the caller's session. *)
Lemma app_delete_cases req w :
  (app_delete req w).2 = w \/
  exists oid d,
    castObjectId (params_id req) = Some oid /\
    todos w !! oid = Some d /\ sessionId d = sessionID req /\
    (app_delete req w).2 = set_todos (delete oid) w.
Proof.
  unfold app_delete, bind, Todo.findOneAndDelete.
  destruct (castObjectId (params_id req)) as [oid|] eqn:Hc; [|left; reflexivity].
  unfold withStore. destruct (dbUp w); [|left; reflexivity].
  destruct (Todo.findOne oid (sessionID req) w) as [d|] eqn:Hf; [|left; reflexivity].
  apply findOne_inv in Hf as [Hl Hs]. right. exists oid, d. auto.
Qed.

(** *** Frame: a request of another session leaves a document alone *)

Lemma handle_keeps_foreign op req w k d :
  todos w !! k = Some d -> sessionId d <> sessionID req ->
  todos (handle op req w).2 !! k = Some d.
Proof.
  intros Hl Hne. destruct op as [|oid| |]; simpl.
  - now rewrite app_get_world.
  - destruct (app_post_cases oid req w) as (r & _ & [[-> _]|(data & _ & Hfresh & _ & ->)]);
      [assumption|].
    simpl. rewrite lookup_insert_ne; [assumption|]. intros ->. congruence.
  - destruct (app_patch_cases req w) as (r & _ & [[-> _]|(p & oid & d' & _ & _ & Hl' & Hs & _ & ->)]);
      [assumption|].
    simpl. rewrite lookup_insert_ne; [assumption|]. intros ->. congruence.
  - destruct (app_delete_cases req w) as [->|(oid & d' & _ & Hl' & Hs & ->)];
      [assumption|].
    simpl. rewrite lookup_delete_ne; [assumption|]. intros ->. congruence.
Qed.


(** ** Claims about the routes *)

(** C2, counterexample to the claim as worded.  The item [idA] belongs to
    session [s1]; an Update sent under [s2] to that id with the body
    [{text: ""}] is answered 400, not 404: the body is validated before the
    item is looked up. *)
Lemma foreign_blank_patch_answers_400 :
  todos Sample.one !! Sample.idA = Some (mkTodo "Buy milk" false "s1" 0) /\
  castObjectId (params_id (Sample.blankPatch "s2")) = Some Sample.idA /\
  exists r,
    app_patch (Sample.blankPatch "s2") Sample.one = (Ok r, Sample.one) /\
    status r = 400 /\ status r <> 404.
Proof.
  split; [vm_compute; reflexivity|]. split; [vm_compute; reflexivity|].
  eexists. split; [vm_compute; reflexivity|]. split; [reflexivity|discriminate].
Qed.

(** C2 (amended).  An Item owned by session s1 and a request bearing another
    session identifier s2: List under s2 never returns the Item; no operation
    under s2 changes it; Delete under s2 on its id answers 404 not_found, and
    so does Update under s2 on its id when the patch body passes validation,
    while an Update whose body fails validation is answered 400; in each case
    the state is left as it was. *)
Theorem session_isolation :
  forall (w : World) (oid : string) (d : TodoDoc) (req : Request),
    todos w !! oid = Some d ->
    sessionId d <> sessionID req ->
    (forall r w' j,
        app_get req w = (Ok r, w') -> j ∈ response_items r ->
        jfield "_id" j <> Some (JStr oid)) /\
    (forall op, todos (handle op req w).2 !! oid = Some d) /\
    (castObjectId (params_id req) = Some oid -> dbUp w = true ->
       app_delete req w = (Ok notFound, w) /\
       app_patch req w =
         (Ok (match z.parse todoSchema_partial (body req) with
              | Ok _ => notFound
              | Err e => res_status_json 400 (errorBody e)
              end), w)) /\
    status notFound = 404 /\
    payload notFound = JObj [("ok", JBool false); ("error", JStr "not_found")].
Proof.
  intros w oid d req Hl Hne. split; [|split; [|split; [|split; reflexivity]]].
  - intros r w' j Hg Hj Hid.
    destruct (app_get_items _ _ _ _ _ Hg Hj) as (k & d' & -> & Hl' & Hs).
    cbn in Hid. injection Hid as ->. congruence.
  - intros op. now apply handle_keeps_foreign.
  - intros Hc Hup.
    pose proof (findOne_foreign _ _ _ _ Hl Hne) as Hf.
    split; [now apply (app_delete_unmatched _ _ oid)|].
    destruct (z.parse todoSchema_partial (body req)) as [p|e] eqn:Hp.
    + now apply (app_patch_unmatched _ _ p oid).
    + now apply app_patch_invalid.
Qed.

Lemma session_isolation_witness :
  todos Sample.one !! Sample.idA = Some (mkTodo "Buy milk" false "s1" 0) /\
  app_delete (Sample.complete "s2") Sample.one = (Ok notFound, Sample.one) /\
  app_patch (Sample.complete "s2") Sample.one = (Ok notFound, Sample.one) /\
  todos (handle Delete (Sample.complete "s2") Sample.one).2 !! Sample.idA
    = Some (mkTodo "Buy milk" false "s1" 0).
Proof.
  assert (Hl : todos Sample.one !! Sample.idA = Some (mkTodo "Buy milk" false "s1" 0))
    by (vm_compute; reflexivity).
  assert (Hne : sessionId (mkTodo "Buy milk" false "s1" 0) <> sessionID (Sample.complete "s2"))
    by (vm_compute; discriminate).
  destruct (session_isolation Sample.one Sample.idA _ (Sample.complete "s2") Hl Hne)
    as (_ & Hframe & Hstatus & _).
  destruct (Hstatus ltac:(vm_compute; reflexivity) ltac:(reflexivity)) as [Hd Hp].
  split; [exact Hl|]. split; [exact Hd|]. split; [exact Hp|]. exact (Hframe Delete).
Defined.




(** C4.  Create answers 400 with a validation error whose path is [text]
    whenever the body's [text] is missing or the empty string, and then
    nothing is persisted; for a body that passes validation, Create persists
    a new Item owned by the caller's session and returns it with status 200
    (the store being reachable, the session identifier non-empty as the
    session middleware makes it, and the drawn ObjectId unused). *)
Theorem create_validates_text :
  forall (oid : string) (req : Request) (w : World),
    (text_missing_or_empty (body req) ->
       exists r,
         app_post oid req w = (Ok r, w) /\
         status r = 400 /\
         jfield "ok" (payload r) = Some (JBool false) /\
         JArr [JStr "text"] ∈ reported_paths r) /\
    (forall data,
       z.parse todoSchema (body req) = Ok data ->
       dbUp w = true -> sessionID req <> "" -> todos w !! oid = None ->
       exists r w' d,
         app_post oid req w = (Ok r, w') /\
         status r = 200 /\
         response_items r = [Todo.toJSON (oid, d)] /\
         todos w' = <[oid := d]> (todos w) /\
         sessions w' = sessions w /\
         sessionId d = sessionID req /\
         text d = td_text data /\
         completed d = default false (td_completed data)).
Proof.
  intros oid req w. split.
  - intros Hbad.
    destruct (todoSchema_rejects_bad_text _ Hbad) as (issues & i & Hp & Hi & Hpath).
    rewrite (app_post_invalid _ _ _ _ Hp).
    eexists. split; [reflexivity|]. split; [reflexivity|]. split; [reflexivity|].
    cbn. apply list_elem_of_omap. exists (issueJSON i).
    split; [now apply list_elem_of_fmap_2|].
    cbn. now rewrite Hpath.
  - intros data Hp Hup Hsid Hfresh.
    rewrite (app_post_valid _ _ _ _ Hp Hup Hsid Hfresh).
    eexists _, _, _. split; [reflexivity|]. repeat split.
Qed.

Lemma create_validates_text_witness :
  (exists r,
     app_post Sample.idA Sample.emptyText Sample.empty = (Ok r, Sample.empty) /\
     status r = 400 /\
     jfield "ok" (payload r) = Some (JBool false) /\
     JArr [JStr "text"] ∈ reported_paths r) /\
  (exists r w' d,
     app_post Sample.idA Sample.buyMilk Sample.empty = (Ok r, w') /\
     status r = 200 /\
     response_items r = [Todo.toJSON (Sample.idA, d)] /\
     todos w' = <[Sample.idA := d]> (todos Sample.empty) /\
     sessions w' = sessions Sample.empty /\
     sessionId d = "s1" /\
     text d = "Buy milk" /\
     completed d = false).
Proof.
  split.
  - apply (create_validates_text Sample.idA Sample.emptyText Sample.empty).
    exists [("text", JStr "")]. split; [reflexivity|]. right. vm_compute; reflexivity.
  - apply (proj2 (create_validates_text Sample.idA Sample.buyMilk Sample.empty)
             (mkTodoData "Buy milk" None)).
    + vm_compute; reflexivity.
    + reflexivity.
    + vm_compute; discriminate.
    + vm_compute; reflexivity.
Defined.

(** C5.  For every non-empty [text], Create under a session with
    [completed] omitted, followed by List under the same session, yields a
    result that contains an Item with that [text] and [completed = false]. *)
Theorem create_then_list :
  forall (oid : string) (create listing : Request) (kvs : list (string * json))
         (t : string) (w : World),
    body create = JObj kvs ->
    jget "text" kvs = Some (JStr t) -> t <> "" ->
    jget "completed" kvs = None ->
    sessionID listing = sessionID create ->
    sessionID create <> "" -> dbUp w = true -> todos w !! oid = None ->
    exists r1 w1 r2 j,
      app_post oid create w = (Ok r1, w1) /\ status r1 = 200 /\
      app_get listing w1 = (Ok r2, w1) /\ status r2 = 200 /\
      j ∈ response_items r2 /\
      jfield "text" j = Some (JStr t) /\
      jfield "completed" j = Some (JBool false).
Proof.
  intros oid create lst kvs t w Hb Ht Hne Hc Hsame Hsid Hup Hfresh.
  assert (Hp : z.parse todoSchema (body create) = Ok (mkTodoData t None)).
  { rewrite Hb. unfold_zod. simpl. rewrite Ht, Hc. now rewrite decide_False. }
  set (todo := Todo.new oid (mkTodoData t None) (sessionID create)).
  set (w1 := set_todos (insert oid todo.2) w).
  assert (Hup1 : dbUp w1 = true) by exact Hup.
  assert (Hsid' : sessionID lst <> "") by congruence.
  eexists _, w1, _, (Todo.toJSON todo).
  split; [exact (app_post_valid _ _ _ _ Hp Hup Hsid Hfresh)|].
  split; [reflexivity|].
  split; [exact (app_get_up _ _ Hup1 Hsid')|].
  split; [reflexivity|]. split; [|split; reflexivity].
  cbn. apply list_elem_of_fmap_2. apply find_elem.
  split; [apply lookup_insert_eq|]. cbn. congruence.
Qed.

Lemma create_then_list_witness :
  exists r1 w1 r2 j,
    app_post Sample.idA Sample.buyMilk Sample.empty = (Ok r1, w1) /\ status r1 = 200 /\
    app_get (Sample.remove "s1" "") w1 = (Ok r2, w1) /\ status r2 = 200 /\
    j ∈ response_items r2 /\
    jfield "text" j = Some (JStr "Buy milk") /\
    jfield "completed" j = Some (JBool false).
Proof.
  apply (create_then_list Sample.idA Sample.buyMilk (Sample.remove "s1" "")
           [("text", JStr "Buy milk")] "Buy milk" Sample.empty).
  - reflexivity.
  - vm_compute; reflexivity.
  - vm_compute; discriminate.
  - vm_compute; reflexivity.
  - reflexivity.
  - vm_compute; discriminate.
  - reflexivity.
  - vm_compute; reflexivity.
Defined.

(** C6.  For an existing Item, Update by its session with the patch body
    [{completed: true}] sets [completed] to true and leaves [text], the id,
    [sessionId] and every other field as they were; in general Update writes
    the fields present in the patch and no other, on that document only. *)
Theorem patch_applies_present_fields :
  forall (w : World) (req : Request) (oid : string) (d : TodoDoc),
    castObjectId (params_id req) = Some oid ->
    todos w !! oid = Some d ->
    sessionId d = sessionID req ->
    dbUp w = true ->
    (body req = JObj [("completed", JBool true)] ->
       let d' := {| text := text d; completed := true;
                    sessionId := sessionId d; versionKey := versionKey d |} in
       app_patch req w =
         (Ok (res_json (JObj [("ok", JBool true); ("result", Todo.toJSON (oid, d'))])),
          set_todos (insert oid d') w)) /\
    (forall kvs p,
       body req = JObj kvs ->
       z.parse todoSchema_partial (body req) = Ok p ->
       exists d',
         app_patch req w =
           (Ok (res_json (JObj [("ok", JBool true); ("result", Todo.toJSON (oid, d'))])),
            set_todos (insert oid d') w) /\
         sessionId d' = sessionId d /\ versionKey d' = versionKey d /\
         (jget "text" kvs = None -> text d' = text d) /\
         (jget "completed" kvs = None -> completed d' = completed d) /\
         (forall t, jget "text" kvs = Some (JStr t) -> text d' = t) /\
         (forall c, jget "completed" kvs = Some (JBool c) -> completed d' = c)).
Proof.
  intros w req oid d Hc Hl Hs Hup. split.
  - intros Hb d'.
    assert (Hp : z.parse todoSchema_partial (body req) = Ok (mkTodoPatch None (Some true)))
      by (rewrite Hb; reflexivity).
    exact (app_patch_owned _ _ _ _ _ Hp Hc Hup Hl Hs).
  - intros kvs p Hb Hp. exists (Todo.applyPatch p d).
    split; [exact (app_patch_owned _ _ _ _ _ Hp Hc Hup Hl Hs)|].
    destruct (todoSchema_partial_parse_ok _ _ Hp) as (kvs' & Hb' & Ht & _ & Hco).
    rewrite Hb in Hb'. injection Hb' as <-.
    destruct p as [pt pc]. simpl in *.
    repeat split.
    + intros E. rewrite E in Ht. destruct pt; [discriminate|reflexivity].
    + intros E. rewrite E in Hco. destruct pc; [discriminate|reflexivity].
    + intros t E. rewrite E in Ht. destruct pt; simpl in *; congruence.
    + intros c E. rewrite E in Hco. destruct pc; simpl in *; congruence.
Qed.

Lemma patch_applies_present_fields_witness :
  app_patch (Sample.complete "s1") Sample.one =
    (Ok (res_json (JObj [("ok", JBool true);
                         ("result", Todo.toJSON (Sample.idA, mkTodo "Buy milk" true "s1" 0))])),
     set_todos (insert Sample.idA (mkTodo "Buy milk" true "s1" 0)) Sample.one) /\
  exists d',
    app_patch (Sample.complete "s1") Sample.one =
      (Ok (res_json (JObj [("ok", JBool true); ("result", Todo.toJSON (Sample.idA, d'))])),
       set_todos (insert Sample.idA d') Sample.one) /\
    text d' = "Buy milk" /\ completed d' = true.
Proof.
  destruct (patch_applies_present_fields Sample.one (Sample.complete "s1") Sample.idA
              (mkTodo "Buy milk" false "s1" 0)
              ltac:(vm_compute; reflexivity) ltac:(vm_compute; reflexivity)
              ltac:(reflexivity) ltac:(reflexivity)) as [H1 H2].
  split; [exact (H1 eq_refl)|].
  destruct (H2 [("completed", JBool true)] (mkTodoPatch None (Some true))
              eq_refl ltac:(vm_compute; reflexivity))
    as (d' & Hr & _ & _ & Ht & _ & _ & Hco).
  exists d'. split; [exact Hr|]. split.
  - exact (Ht ltac:(vm_compute; reflexivity)).
  - exact (Hco true ltac:(vm_compute; reflexivity)).
Defined.

(** C7.  For an Item existing under session sid, Delete under sid on its
    id answers 200 with [{ok: true, result: null}] and removes the Item; a
    second Delete on the same id answers 404 with
    [{ok: false, error: "not_found"}] and changes nothing. *)
Theorem delete_twice :
  forall (w : World) (req : Request) (oid : string) (d : TodoDoc),
    castObjectId (params_id req) = Some oid ->
    todos w !! oid = Some d ->
    sessionId d = sessionID req ->
    dbUp w = true ->
    exists r1 w1 r2,
      app_delete req w = (Ok r1, w1) /\
      status r1 = 200 /\ payload r1 = JObj [("ok", JBool true); ("result", JNull)] /\
      todos w1 = delete oid (todos w) /\ todos w1 !! oid = None /\
      app_delete req w1 = (Ok r2, w1) /\
      status r2 = 404 /\ payload r2 = JObj [("ok", JBool false); ("error", JStr "not_found")].
Proof.
  intros w req oid d Hc Hl Hs Hup.
  set (w1 := set_todos (delete oid) w).
  assert (Hgone : todos w1 !! oid = None) by apply lookup_delete_eq.
  assert (Hf : Todo.findOne oid (sessionID req) w1 = None)
    by (unfold Todo.findOne; now rewrite Hgone).
  eexists _, w1, _.
  split; [exact (app_delete_owned _ _ _ _ Hc Hup Hl Hs)|].
  split; [reflexivity|]. split; [reflexivity|]. split; [reflexivity|].
  split; [exact Hgone|].
  split; [exact (app_delete_unmatched req w1 oid Hc Hup Hf)|].
  split; reflexivity.
Qed.

Lemma delete_twice_witness :
  exists r1 w1 r2,
    app_delete (Sample.remove "s1" Sample.idA) Sample.one = (Ok r1, w1) /\
    status r1 = 200 /\ payload r1 = JObj [("ok", JBool true); ("result", JNull)] /\
    todos w1 = delete Sample.idA (todos Sample.one) /\ todos w1 !! Sample.idA = None /\
    app_delete (Sample.remove "s1" Sample.idA) w1 = (Ok r2, w1) /\
    status r2 = 404 /\ payload r2 = JObj [("ok", JBool false); ("error", JStr "not_found")].
Proof.
  apply (delete_twice Sample.one (Sample.remove "s1" Sample.idA) Sample.idA
           (mkTodo "Buy milk" false "s1" 0)).
  - vm_compute; reflexivity.
  - vm_compute; reflexivity.
  - reflexivity.
  - reflexivity.
Defined.

(** Create and Update answer every request: whatever is thrown inside
    their [try] block becomes a 400 response. *)
Lemma create_update_always_answer oid req w :
  (exists r, (handle (Create oid) req w).1 = Ok r) /\
  (exists r, (handle Update req w).1 = Ok r).
Proof.
  split; simpl.
  - destruct (app_post_cases oid req w) as (r & Hr & _). eauto.
  - destruct (app_patch_cases req w) as (r & Hr & _). eauto.
Qed.

(** List has no [try] block either: with the store down it rejects. *)
Lemma list_rejects_when_store_down :
  handle List Sample.buyMilk (mkWorld ∅ ∅ false []) =
    (Err (MongoError "store unavailable"), mkWorld ∅ ∅ false []).
Proof. vm_compute; reflexivity. Qed.

(** C8 (the code departs from the claim).  The claim: every error raised
    while handling a request of any of the four operations is caught at the
    operation boundary and turned into an HTTP response.  The code: Delete
    on the id ["abc"], which is no ObjectId, makes [findOneAndDelete] reject
    with a cast error; [app.delete] has no [try] block, so the handler itself
    rejects and sends no response. *)
Theorem delete_rejects_on_malformed_id :
  handle Delete (Sample.remove "s1" "abc") Sample.one =
    (Err (CastError "_id" "abc"), Sample.one).
Proof. vm_compute; reflexivity. Qed.

(** C10.  For every Create request, whatever its body holds, an Item that
    the request persists is owned by the caller's session; the body is read
    through the schema's two keys only, so a [sessionId] (or any other key)
    supplied by the client has no effect on the outcome. *)
Theorem create_owner_is_caller :
  forall (oid : string) (req : Request) (w : World),
    (forall k d,
        todos (app_post oid req w).2 !! k = Some d ->
        todos w !! k = Some d \/ (k = oid /\ sessionId d = sessionID req)) /\
    (forall kvs kvs',
        jget "text" kvs = jget "text" kvs' ->
        jget "completed" kvs = jget "completed" kvs' ->
        app_post oid (mkRequest (sessionID req) (params_id req) (JObj kvs)) w =
        app_post oid (mkRequest (sessionID req) (params_id req) (JObj kvs')) w).
Proof.
  intros oid req w. split.
  - intros k d.
    destruct (app_post_cases oid req w) as (r & _ & [[-> _]|(data & _ & _ & _ & ->)]);
      [auto|].
    simpl. destruct (decide (k = oid)) as [->|Hne].
    + rewrite lookup_insert_eq. intros [= <-]. right. split; reflexivity.
    + rewrite lookup_insert_ne by congruence. auto.
  - intros kvs kvs' Ht Hc. unfold app_post. simpl.
    now rewrite (todoSchema_reads_shape_only kvs kvs' Ht Hc).
Qed.

Lemma create_owner_is_caller_witness :
  (todos Sample.empty !! Sample.idA = Some (mkTodo "Buy milk" false "s1" 0) \/
   (Sample.idA = Sample.idA /\ sessionId (mkTodo "Buy milk" false "s1" 0) = "s1")) /\
  app_post Sample.idA Sample.forged Sample.empty =
  app_post Sample.idA Sample.buyMilk Sample.empty.
Proof.
  destruct (create_owner_is_caller Sample.idA Sample.forged Sample.empty) as [H1 H2].
  split.
  - apply (H1 Sample.idA (mkTodo "Buy milk" false "s1" 0)). vm_compute; reflexivity.
  - apply (H2 [("sessionId", JStr "s2"); ("text", JStr "Buy milk")]
              [("text", JStr "Buy milk")]); vm_compute; reflexivity.
Defined.

(** * Further properties of the routes and the sweep *)

(** ** Complete case analyses of the writing routes *)

(** Every way [app.post] can end. *)
Lemma app_post_inv oid req w :
  (exists e, z.parse todoSchema (body req) = Err e /\
             app_post oid req w = (Ok (res_status_json 400 (errorBody e)), w)) \/
  (exists data, z.parse todoSchema (body req) = Ok data /\ sessionID req = "" /\
                app_post oid req w =
                  (Ok (res_status_json 400 (errorBody (ValidationError ["sessionId"]))), w)) \/
  (exists data, z.parse todoSchema (body req) = Ok data /\ sessionID req <> "" /\
                (dbUp w = false \/ is_Some (todos w !! oid)) /\
                app_post oid req w =
                  (Ok (res_status_json 400 (JObj [("ok", JBool false)])), w)) \/
  (exists data, z.parse todoSchema (body req) = Ok data /\ sessionID req <> "" /\
                dbUp w = true /\ todos w !! oid = None /\
                app_post oid req w =
                  (Ok (res_json (JObj [("ok", JBool true);
                                       ("result", Todo.toJSON (Todo.new oid data (sessionID req)))])),
                   set_todos (insert oid (Todo.new oid data (sessionID req)).2) w)).
Proof.
  destruct (z.parse todoSchema (body req)) as [data|e] eqn:Hp.
  2:{ left. exists e. split; [reflexivity|]. now apply app_post_invalid. }
  right. destruct (todoSchema_parse_ok _ _ Hp) as (kvs & _ & _ & Ht & _).
  destruct (decide (sessionID req = "")) as [Hs|Hs].
  { left. exists data. split; [reflexivity|]. split; [assumption|].
    unfold app_post, try_catch, bind, lift. rewrite Hp.
    unfold Todo.save, Todo.validate, Todo.new. cbn [snd text sessionId].
    rewrite decide_False by assumption. rewrite decide_True by assumption.
    reflexivity. }
  right. destruct (dbUp w) eqn:Hup.
  - destruct (todos w !! oid) as [d0|] eqn:Hl.
    + left. exists data. split; [reflexivity|]. split; [assumption|].
      split; [right; eauto|].
      unfold app_post, try_catch, bind, lift. rewrite Hp.
      unfold Todo.save. rewrite validate_new by assumption.
      rewrite withStore_up by assumption. cbn [fst Todo.new]. now rewrite Hl.
    + right. exists data. repeat (split; [auto; fail|]).
      now apply app_post_valid.
  - left. exists data. split; [reflexivity|]. split; [assumption|].
    split; [left; reflexivity|].
    unfold app_post, try_catch, bind, lift. rewrite Hp.
    unfold Todo.save. rewrite validate_new by assumption.
    now rewrite withStore_down by assumption.
Qed.

(** Every way [app.patch] can end. *)
Lemma app_patch_inv req w :
  (exists e, z.parse todoSchema_partial (body req) = Err e /\
             app_patch req w = (Ok (res_status_json 400 (errorBody e)), w)) \/
  (exists p, z.parse todoSchema_partial (body req) = Ok p /\
             (castObjectId (params_id req) = None \/ dbUp w = false) /\
             app_patch req w = (Ok (res_status_json 400 (JObj [("ok", JBool false)])), w)) \/
  (exists p oid, z.parse todoSchema_partial (body req) = Ok p /\
                 castObjectId (params_id req) = Some oid /\ dbUp w = true /\
                 Todo.findOne oid (sessionID req) w = None /\
                 app_patch req w = (Ok notFound, w)) \/
  (exists p oid d, z.parse todoSchema_partial (body req) = Ok p /\
                   castObjectId (params_id req) = Some oid /\ dbUp w = true /\
                   todos w !! oid = Some d /\ sessionId d = sessionID req /\
                   app_patch req w =
                     (Ok (res_json (JObj [("ok", JBool true);
                                          ("result", Todo.toJSON (oid, Todo.applyPatch p d))])),
                      set_todos (insert oid (Todo.applyPatch p d)) w)).
Proof.
  destruct (z.parse todoSchema_partial (body req)) as [p|e] eqn:Hp.
  2:{ left. exists e. split; [reflexivity|]. now apply app_patch_invalid. }
  right. destruct (castObjectId (params_id req)) as [oid|] eqn:Hc.
  2:{ left. exists p. split; [reflexivity|]. split; [left; reflexivity|].
      unfold app_patch, try_catch, bind, lift. rewrite Hp.
      unfold Todo.findOneAndUpdate. now rewrite Hc. }
  destruct (dbUp w) eqn:Hup.
  2:{ left. exists p. split; [reflexivity|]. split; [right; reflexivity|].
      unfold app_patch, try_catch, bind, lift. rewrite Hp.
      unfold Todo.findOneAndUpdate. rewrite Hc. now rewrite withStore_down by assumption. }
  right. destruct (Todo.findOne oid (sessionID req) w) as [d|] eqn:Hf.
  - right. apply findOne_inv in Hf as [Hl Hs]. exists p, oid, d.
    repeat (split; [auto; fail|]). now apply app_patch_owned.
  - left. exists p, oid. repeat (split; [auto; fail|]). now apply (app_patch_unmatched _ _ p oid).
Qed.

(** Every way [app.delete] can end. *)
Lemma app_delete_inv req w :
  (castObjectId (params_id req) = None /\
   app_delete req w = (Err (CastError "_id" (params_id req)), w)) \/
  (exists oid, castObjectId (params_id req) = Some oid /\ dbUp w = false /\
               app_delete req w = (Err (MongoError "store unavailable"), w)) \/
  (exists oid, castObjectId (params_id req) = Some oid /\ dbUp w = true /\
               Todo.findOne oid (sessionID req) w = None /\
               app_delete req w = (Ok notFound, w)) \/
  (exists oid d, castObjectId (params_id req) = Some oid /\ dbUp w = true /\
                 todos w !! oid = Some d /\ sessionId d = sessionID req /\
                 app_delete req w =
                   (Ok (res_json (JObj [("ok", JBool true); ("result", JNull)])),
                    set_todos (delete oid) w)).
Proof.
  destruct (castObjectId (params_id req)) as [oid|] eqn:Hc.
  2:{ left. split; [reflexivity|]. now apply app_delete_bad_id. }
  right. destruct (dbUp w) eqn:Hup.
  2:{ left. exists oid. repeat (split; [auto; fail|]). now apply (app_delete_store_down _ _ oid). }
  right. destruct (Todo.findOne oid (sessionID req) w) as [d|] eqn:Hf.
  - right. apply findOne_inv in Hf as [Hl Hs]. exists oid, d.
    repeat (split; [auto; fail|]). now apply (app_delete_owned _ _ oid d).
  - left. exists oid. repeat (split; [auto; fail|]). now apply (app_delete_unmatched _ _ oid).
Qed.

(** ** The validation schema, completely *)

(** X1.  [todoSchema] accepts a body exactly when it is an object whose
    [text] is a non-empty string and whose [completed] is absent or a
    boolean; the parsed value holds those two fields and nothing else. *)
Theorem todoSchema_accepts_iff :
  forall (b : json) (d : TodoData),
    z.parse todoSchema b = Ok d <->
    exists kvs,
      b = JObj kvs /\ jget "text" kvs = Some (JStr (td_text d)) /\ td_text d <> "" /\
      jget "completed" kvs = JBool <$> td_completed d.
Proof.
  intros b d. split; [apply todoSchema_parse_ok|].
  intros (kvs & -> & Ht & Hne & Hc). destruct d as [t [c|]]; simpl in *;
    unfold_zod; simpl; rewrite Ht, Hc; now rewrite decide_False.
Qed.

(** X2.  [todoSchema.partial()] accepts a body exactly when it is an object
    whose [text] is absent or a non-empty string and whose [completed] is
    absent or a boolean: the empty object is a valid patch, while
    [{text: ""}] is not, since the length check stays on the optional
    field. *)
Theorem todoSchema_partial_accepts_iff :
  forall (b : json) (p : TodoPatch),
    z.parse todoSchema_partial b = Ok p <->
    exists kvs,
      b = JObj kvs /\ jget "text" kvs = JStr <$> tp_text p /\ tp_text p <> Some "" /\
      jget "completed" kvs = JBool <$> tp_completed p.
Proof.
  intros b p. split; [apply todoSchema_partial_parse_ok|].
  intros (kvs & -> & Ht & Hne & Hc). destruct p as [[t|] [c|]]; simpl in *;
    unfold_zod; simpl; rewrite Ht, Hc; try reflexivity;
    rewrite decide_False by congruence; reflexivity.
Qed.

(** X3.  Every body that Create accepts is accepted by Update too, with
    the same [text] and [completed]. *)
Theorem create_body_is_patch_body :
  forall (b : json) (d : TodoData),
    z.parse todoSchema b = Ok d ->
    z.parse todoSchema_partial b = Ok (mkTodoPatch (Some (td_text d)) (td_completed d)).
Proof.
  intros b d Hp. apply todoSchema_parse_ok in Hp as (kvs & -> & Ht & Hne & Hc).
  destruct d as [t [c|]]; simpl in *; unfold_zod; simpl; rewrite Ht, Hc;
    now rewrite decide_False.
Qed.

Lemma create_body_is_patch_body_witness :
  z.parse todoSchema (JObj [("text", JStr "Buy milk"); ("completed", JBool true)])
    = Ok (mkTodoData "Buy milk" (Some true)) /\
  z.parse todoSchema_partial (JObj [("text", JStr "Buy milk"); ("completed", JBool true)])
    = Ok (mkTodoPatch (Some "Buy milk") (Some true)).
Proof.
  split; [vm_compute; reflexivity|].
  apply (create_body_is_patch_body
           (JObj [("text", JStr "Buy milk"); ("completed", JBool true)])
           (mkTodoData "Buy milk" (Some true))).
  vm_compute; reflexivity.
Defined.

(** X4.  A rejected body is reported with at least one issue, and every
    issue points at the body itself, at [text] or at [completed]: no other
    key of the body is ever looked at or reported. *)
Theorem todoSchema_issue_paths :
  forall (b : json) (e : Error),
    z.parse todoSchema b = Err e \/ z.parse todoSchema_partial b = Err e ->
    exists issues,
      e = ZodError issues /\ issues <> [] /\
      forall i, i ∈ issues -> path i = [] \/ path i = ["text"] \/ path i = ["completed"].
Proof.
  intros b e [H|H]; revert H; unfold_zod;
    (destruct b as [| | | | |kvs]; simpl;
     [intros [= <-]; eexists; split; [reflexivity|]; split; [discriminate|];
      intros i Hi; apply list_elem_of_singleton in Hi as ->; auto ..|]);
    zod_cases kvs; intros Hp; simplify_eq;
    (eexists; split; [reflexivity|]; split; [discriminate|]);
    intros i Hi;
    repeat match goal with
           | H : _ ∈ _ :: _ |- _ => inversion H; subst; clear H; [simpl; auto|]
           | H : _ ∈ [] |- _ => inversion H
           end.
Qed.

Lemma todoSchema_issue_paths_witness :
  exists issues,
    ZodError [ {| code := "too_small"; path := ["text"]; message := "Text is required" |} ]
      = ZodError issues /\ issues <> [] /\
    forall i, i ∈ issues -> path i = [] \/ path i = ["text"] \/ path i = ["completed"].
Proof.
  apply (todoSchema_issue_paths (JObj [("text", JStr ""); ("other", JNum 1)])).
  left. vm_compute; reflexivity.
Defined.

(** ** List *)

Lemma toJSON_inj kd kd' : Todo.toJSON kd = Todo.toJSON kd' -> kd = kd'.
Proof.
  destruct kd as [k [t c s v]], kd' as [k' [t' c' s' v']].
  unfold Todo.toJSON. simpl. intros H. now simplify_eq.
Qed.

Lemma response_items_array b xs :
  response_items (res_json (JObj [("ok", b); ("result", JArr xs)])) = xs.
Proof. reflexivity. Qed.

(** X5.  With the store reachable, List under a session answers 200 with
    exactly the stored items of that session: each of them once, no other
    item, and the state is left as it was. *)
Theorem list_returns_exactly_session_items :
  forall (req : Request) (w : World),
    dbUp w = true -> sessionID req <> "" ->
    exists r,
      app_get req w = (Ok r, w) /\ status r = 200 /\
      jfield "ok" (payload r) = Some (JBool true) /\
      (forall j, j ∈ response_items r <->
                 exists k d, todos w !! k = Some d /\ sessionId d = sessionID req /\
                             j = Todo.toJSON (k, d)) /\
      NoDup (response_items r).
Proof.
  intros req w Hup Hsid. rewrite (app_get_up _ _ Hup Hsid).
  eexists. split; [reflexivity|]. split; [reflexivity|]. split; [reflexivity|].
  rewrite response_items_array. split.
  - intros j. rewrite list_elem_of_fmap. split.
    + intros ([k d] & -> & Hkd). apply find_elem in Hkd as [H1 H2]. eauto.
    + intros (k & d & H1 & H2 & ->). exists (k, d). split; [reflexivity|].
      now apply find_elem.
  - apply NoDup_fmap_2_strong; [|apply NoDup_map_to_list].
    intros kd kd' _ _. apply toJSON_inj.
Qed.

Lemma list_returns_exactly_session_items_witness :
  exists r,
    app_get (Sample.remove "s1" "") Sample.one = (Ok r, Sample.one) /\ status r = 200 /\
    jfield "ok" (payload r) = Some (JBool true) /\
    (forall j, j ∈ response_items r <->
               exists k d, todos Sample.one !! k = Some d /\ sessionId d = "s1" /\
                           j = Todo.toJSON (k, d)) /\
    NoDup (response_items r).
Proof.
  apply (list_returns_exactly_session_items (Sample.remove "s1" "") Sample.one).
  - reflexivity.
  - vm_compute; discriminate.
Defined.

(** ** Create *)

(** X6.  Create always answers, with 200 or 400.  It answers 200 exactly
    when the body passes the schema, the session identifier is non-empty,
    the store is reachable and the drawn id is unused; a 400 leaves the
    state untouched, so a failed Create never leaves a partial item. *)
Theorem create_succeeds_iff :
  forall (oid : string) (req : Request) (w : World),
    exists r,
      (app_post oid req w).1 = Ok r /\
      (status r = 200 \/ status r = 400) /\
      (status r = 200 <->
         (exists data, z.parse todoSchema (body req) = Ok data) /\
         sessionID req <> "" /\ dbUp w = true /\ todos w !! oid = None) /\
      (status r = 400 -> (app_post oid req w).2 = w).
Proof.
  intros oid req w.
  destruct (app_post_inv oid req w)
    as [(e & Hp & ->)|[(data & Hp & Hs & ->)|[(data & Hp & Hs & Hbad & ->)
       |(data & Hp & Hs & Hup & Hfresh & ->)]]];
    eexists; (split; [reflexivity|]); cbn.
  - split; [now right|]. split; [|reflexivity].
    split; [discriminate|]. intros ((data & Hd) & _). congruence.
  - split; [now right|]. split; [|reflexivity].
    split; [discriminate|]. intros (_ & Hne & _). congruence.
  - split; [now right|]. split; [|reflexivity].
    split; [discriminate|]. intros (_ & _ & Hup & Hfresh).
    destruct Hbad as [Hd|[d0 Hd]]; congruence.
  - split; [now left|]. split; [|discriminate].
    split; [|reflexivity]. intros _. eauto.
Qed.

(** X7.  When the body is valid but the store is down or the drawn id is
    already taken, Create answers 400 with the body [{ok: false}] and no
    [error] key (the store's error has no [errors] property), and nothing is
    written. *)
Theorem create_store_failure_body :
  forall (oid : string) (req : Request) (w : World) (data : TodoData),
    z.parse todoSchema (body req) = Ok data ->
    sessionID req <> "" ->
    dbUp w = false \/ is_Some (todos w !! oid) ->
    app_post oid req w = (Ok (res_status_json 400 (JObj [("ok", JBool false)])), w).
Proof.
  intros oid req w data Hp Hs Hbad.
  destruct (app_post_inv oid req w)
    as [(e & Hp' & _)|[(data' & _ & Hs' & _)|[(data' & _ & _ & _ & H)
       |(data' & _ & _ & Hup & Hfresh & _)]]];
    [congruence|congruence|exact H|].
  destruct Hbad as [Hd|[d0 Hd]]; congruence.
Qed.

Lemma create_store_failure_body_witness :
  app_post Sample.idA Sample.buyMilk Sample.one =
    (Ok (res_status_json 400 (JObj [("ok", JBool false)])), Sample.one).
Proof.
  apply (create_store_failure_body Sample.idA Sample.buyMilk Sample.one
           (mkTodoData "Buy milk" None)).
  - vm_compute; reflexivity.
  - vm_compute; discriminate.
  - right. exists (mkTodo "Buy milk" false "s1" 0). vm_compute; reflexivity.
Defined.

(** ** Update *)

(** X8.  Update with a valid patch body answers 400 with the body
    [{ok: false}], never 404, when the id is not an ObjectId or the store is
    down: the [catch] of [app.patch] turns the cast error and the store error
    into the same reply as a validation failure, without detail.  The state
    is untouched. *)
Theorem patch_cast_or_store_failure :
  forall (req : Request) (w : World) (p : TodoPatch),
    z.parse todoSchema_partial (body req) = Ok p ->
    castObjectId (params_id req) = None \/ dbUp w = false ->
    app_patch req w = (Ok (res_status_json 400 (JObj [("ok", JBool false)])), w).
Proof.
  intros req w p Hp Hbad.
  destruct (app_patch_inv req w)
    as [(e & Hp' & _)|[(p' & _ & _ & H)|[(p' & oid & _ & Hc & Hup & _)
       |(p' & oid & d & _ & Hc & Hup & _)]]];
    [congruence|exact H| |]; destruct Hbad; congruence.
Qed.

Lemma patch_cast_or_store_failure_witness :
  app_patch (mkRequest "s1" "abc" (JObj [("completed", JBool true)])) Sample.one =
    (Ok (res_status_json 400 (JObj [("ok", JBool false)])), Sample.one).
Proof.
  apply (patch_cast_or_store_failure
           (mkRequest "s1" "abc" (JObj [("completed", JBool true)])) Sample.one
           (mkTodoPatch None (Some true))).
  - vm_compute; reflexivity.
  - left. vm_compute; reflexivity.
Defined.

(** X9.  Update is idempotent: sending the same request a second time
    gives the same response and leaves the state the first one produced. *)
Theorem patch_idempotent :
  forall (req : Request) (w : World),
    app_patch req (app_patch req w).2 = app_patch req w.
Proof.
  intros req w.
  destruct (app_patch_inv req w)
    as [(e & _ & H)|[(p & _ & _ & H)|[(p & oid & _ & _ & _ & _ & H)
       |(p & oid & d & Hp & Hc & Hup & Hl & Hs & H)]]];
    try (rewrite H; cbn [snd]; exact H).
  rewrite H. cbn [snd].
  assert (Hl' : todos (set_todos (insert oid (Todo.applyPatch p d)) w) !! oid
                = Some (Todo.applyPatch p d)) by apply lookup_insert_eq.
  rewrite (app_patch_owned req (set_todos (insert oid (Todo.applyPatch p d)) w)
             p oid (Todo.applyPatch p d) Hp Hc Hup Hl' Hs).
  assert (Hid : Todo.applyPatch p (Todo.applyPatch p d) = Todo.applyPatch p d).
  { unfold Todo.applyPatch. destruct p as [[t|] [c|]]; reflexivity. }
  rewrite Hid. f_equal. unfold set_todos. cbn. now rewrite insert_insert_eq.
Qed.

(** ** Frame and invariants of the four routes *)

(** The state a route leaves behind differs from the one it found in the
    [todos] collection only. *)
Lemma handle_world op req w :
  exists f, (handle op req w).2 = set_todos f w.
Proof.
  destruct op as [|oid| |]; simpl.
  - exists id. rewrite app_get_world. now destruct w.
  - destruct (app_post_inv oid req w)
      as [(e & _ & ->)|[(data & _ & _ & ->)|[(data & _ & _ & _ & ->)
         |(data & _ & _ & _ & _ & ->)]]];
      [exists id; now destruct w ..|eauto].
  - destruct (app_patch_inv req w)
      as [(e & _ & ->)|[(p & _ & _ & ->)|[(p & oid & _ & _ & _ & _ & ->)
         |(p & oid & d & _ & _ & _ & _ & _ & ->)]]];
      [exists id; now destruct w ..|eauto].
  - destruct (app_delete_inv req w)
      as [(_ & ->)|[(oid & _ & _ & ->)|[(oid & _ & _ & _ & ->)
         |(oid & d & _ & _ & _ & _ & ->)]]];
      [exists id; now destruct w ..|eauto].
Qed.

(** X10.  No route ever touches the session store, the console or the
    store's availability: requests only read and write [todos]. *)
Theorem routes_leave_sessions_alone :
  forall (op : Operation) (req : Request) (w : World),
    sessions (handle op req w).2 = sessions w /\
    console (handle op req w).2 = console w /\
    dbUp (handle op req w).2 = dbUp w.
Proof.
  intros op req w. destruct (handle_world op req w) as [f ->]. auto.
Qed.

(** X11.  A request can only touch the document it addresses: Create
    leaves every id but the drawn one as it was, and List, Update and Delete
    leave every id but the one [req.params.id] casts to as it was. *)
Theorem operation_touches_only_its_document :
  forall (op : Operation) (req : Request) (w : World) (k : string),
    match op with
    | Create oid => k <> oid
    | _ => castObjectId (params_id req) <> Some k
    end ->
    todos (handle op req w).2 !! k = todos w !! k.
Proof.
  intros op req w k Hk. destruct op as [|oid| |]; simpl.
  - now rewrite app_get_world.
  - destruct (app_post_inv oid req w)
      as [(e & _ & ->)|[(data & _ & _ & ->)|[(data & _ & _ & _ & ->)
         |(data & _ & _ & _ & _ & ->)]]]; try reflexivity.
    simpl. now rewrite lookup_insert_ne by congruence.
  - destruct (app_patch_inv req w)
      as [(e & _ & ->)|[(p & _ & _ & ->)|[(p & oid & _ & _ & _ & _ & ->)
         |(p & oid & d & _ & Hc & _ & _ & _ & ->)]]]; try reflexivity.
    simpl. rewrite lookup_insert_ne; [reflexivity|]. intros ->. congruence.
  - destruct (app_delete_inv req w)
      as [(_ & ->)|[(oid & _ & _ & ->)|[(oid & _ & _ & _ & ->)
         |(oid & d & Hc & _ & _ & _ & ->)]]]; try reflexivity.
    simpl. rewrite lookup_delete_ne; [reflexivity|]. intros ->. congruence.
Qed.

Lemma operation_touches_only_its_document_witness :
  todos (handle Delete (Sample.remove "old" Sample.idA) Sample.swept).2 !! Sample.idB
    = todos Sample.swept !! Sample.idB.
Proof.
  apply (operation_touches_only_its_document Delete (Sample.remove "old" Sample.idA)
           Sample.swept Sample.idB).
  vm_compute; discriminate.
Defined.

(** X12.  Only Create adds an id to the collection, and the id it adds is
    the drawn one; only Delete removes an id, and the id it removes is the
    one addressed by the request of the owning session. *)
Theorem ids_added_and_removed :
  forall (op : Operation) (req : Request) (w : World) (k : string),
    (todos w !! k = None -> is_Some (todos (handle op req w).2 !! k) ->
       op = Create k) /\
    (todos (handle op req w).2 !! k = None -> forall d, todos w !! k = Some d ->
       op = Delete /\ castObjectId (params_id req) = Some k /\
       sessionId d = sessionID req).
Proof.
  intros op req w k. destruct op as [|oid| |]; simpl.
  - rewrite app_get_world. split; [intros -> [? ?]; discriminate|congruence].
  - destruct (app_post_inv oid req w)
      as [(e & _ & ->)|[(data & _ & _ & ->)|[(data & _ & _ & _ & ->)
         |(data & _ & _ & _ & _ & ->)]]]; simpl;
      try (split; [intros -> [? ?]; discriminate|congruence]).
    destruct (decide (k = oid)) as [->|Hne].
    + rewrite lookup_insert_eq. split; [reflexivity|discriminate].
    + rewrite lookup_insert_ne by congruence.
      split; [intros -> [? ?]; discriminate|congruence].
  - destruct (app_patch_inv req w)
      as [(e & _ & ->)|[(p & _ & _ & ->)|[(p & oid & _ & _ & _ & _ & ->)
         |(p & oid & d & _ & Hc & _ & Hl & _ & ->)]]]; simpl;
      try (split; [intros -> [? ?]; discriminate|congruence]).
    destruct (decide (k = oid)) as [->|Hne].
    + rewrite lookup_insert_eq. split; [congruence|discriminate].
    + rewrite lookup_insert_ne by congruence.
      split; [intros -> [? ?]; discriminate|congruence].
  - destruct (app_delete_inv req w)
      as [(_ & ->)|[(oid & _ & _ & ->)|[(oid & _ & _ & _ & ->)
         |(oid & d & Hc & _ & Hl & Hs & ->)]]]; simpl;
      try (split; [intros -> [? ?]; discriminate|congruence]).
    destruct (decide (k = oid)) as [->|Hne].
    + rewrite lookup_delete_eq. split; [intros _ [? ?]; discriminate|].
      intros _ d' Hd'. split; [reflexivity|]. split; [assumption|]. congruence.
    + rewrite lookup_delete_ne by congruence.
      split; [intros -> [? ?]; discriminate|congruence].
Qed.

Lemma ids_added_and_removed_witness :
  Create Sample.idA = Create Sample.idA /\
  (Delete = Delete /\
   castObjectId (params_id (Sample.remove "s1" Sample.idA)) = Some Sample.idA /\
   sessionId (mkTodo "Buy milk" false "s1" 0) = "s1").
Proof.
  split.
  - apply (proj1 (ids_added_and_removed (Create Sample.idA) Sample.buyMilk
                    Sample.empty Sample.idA)).
    + vm_compute; reflexivity.
    + exists (mkTodo "Buy milk" false "s1" 0). vm_compute; reflexivity.
  - apply (proj2 (ids_added_and_removed Delete (Sample.remove "s1" Sample.idA)
                    Sample.one Sample.idA)).
    + vm_compute; reflexivity.
    + vm_compute; reflexivity.
Defined.

(** X13.  The owner of an item never changes: whatever request is served,
    a document still stored under its id afterwards has the [sessionId] and
    the version key it had before. *)
Theorem owner_never_changes :
  forall (op : Operation) (req : Request) (w : World) (k : string) (d d' : TodoDoc),
    todos w !! k = Some d ->
    todos (handle op req w).2 !! k = Some d' ->
    sessionId d' = sessionId d /\ versionKey d' = versionKey d.
Proof.
  intros op req w k d d' Hl. destruct op as [|oid| |]; simpl.
  - rewrite app_get_world. intros; simplify_eq; auto.
  - destruct (app_post_inv oid req w)
      as [(e & _ & ->)|[(data & _ & _ & ->)|[(data & _ & _ & _ & ->)
         |(data & _ & _ & _ & Hfresh & ->)]]]; simpl;
      try (intros; simplify_eq; auto; fail).
    rewrite lookup_insert_ne by congruence. intros; simplify_eq; auto.
  - destruct (app_patch_inv req w)
      as [(e & _ & ->)|[(p & _ & _ & ->)|[(p & oid & _ & _ & _ & _ & ->)
         |(p & oid & d0 & _ & _ & _ & Hl0 & _ & ->)]]]; simpl;
      try (intros; simplify_eq; auto; fail).
    destruct (decide (k = oid)) as [->|Hne].
    + rewrite lookup_insert_eq. intros [= <-]. simplify_eq. auto.
    + rewrite lookup_insert_ne by congruence. intros; simplify_eq; auto.
  - destruct (app_delete_inv req w)
      as [(_ & ->)|[(oid & _ & _ & ->)|[(oid & _ & _ & _ & ->)
         |(oid & d0 & _ & _ & _ & _ & ->)]]]; simpl;
      try (intros; simplify_eq; auto; fail).
    destruct (decide (k = oid)) as [->|Hne].
    + rewrite lookup_delete_eq. discriminate.
    + rewrite lookup_delete_ne by congruence. intros; simplify_eq; auto.
Qed.

Lemma owner_never_changes_witness :
  sessionId (mkTodo "Buy milk" true "s1" 0) = sessionId (mkTodo "Buy milk" false "s1" 0) /\
  versionKey (mkTodo "Buy milk" true "s1" 0) = versionKey (mkTodo "Buy milk" false "s1" 0).
Proof.
  apply (owner_never_changes Update (Sample.complete "s1") Sample.one Sample.idA).
  - vm_compute; reflexivity.
  - vm_compute; reflexivity.
Defined.

(** X14.  Stored items keep a non-empty [text] and a non-empty
    [sessionId]: if every document of the collection has both, so has every
    document after any request, whatever its body. *)
Theorem stored_fields_stay_nonempty :
  forall (op : Operation) (req : Request) (w : World),
    (forall k d, todos w !! k = Some d -> text d <> "" /\ sessionId d <> "") ->
    forall k d, todos (handle op req w).2 !! k = Some d ->
                text d <> "" /\ sessionId d <> "".
Proof.
  intros op req w Hinv k d. destruct op as [|oid| |]; simpl.
  - rewrite app_get_world. apply Hinv.
  - destruct (app_post_inv oid req w)
      as [(e & _ & ->)|[(data & _ & _ & ->)|[(data & _ & _ & _ & ->)
         |(data & Hp & Hs & _ & _ & ->)]]]; simpl; try apply Hinv.
    destruct (decide (k = oid)) as [->|Hne].
    + rewrite lookup_insert_eq. intros [= <-]. simpl.
      apply todoSchema_parse_ok in Hp as (kvs & _ & _ & Hne & _). auto.
    + rewrite lookup_insert_ne by congruence. apply Hinv.
  - destruct (app_patch_inv req w)
      as [(e & _ & ->)|[(p & _ & _ & ->)|[(p & oid & _ & _ & _ & _ & ->)
         |(p & oid & d0 & Hp & _ & _ & Hl0 & _ & ->)]]]; simpl; try apply Hinv.
    destruct (decide (k = oid)) as [->|Hne].
    + rewrite lookup_insert_eq. intros [= <-].
      destruct (Hinv _ _ Hl0) as [Ht Hs].
      apply todoSchema_partial_parse_ok in Hp as (kvs & _ & _ & Hne & _).
      destruct p as [[t|] c]; simpl in *; split; auto; congruence.
    + rewrite lookup_insert_ne by congruence. apply Hinv.
  - destruct (app_delete_inv req w)
      as [(_ & ->)|[(oid & _ & _ & ->)|[(oid & _ & _ & _ & ->)
         |(oid & d0 & _ & _ & _ & _ & ->)]]]; simpl; try apply Hinv.
    intros Hd. apply lookup_delete_Some in Hd as [_ Hd]. now apply Hinv in Hd.
Qed.

Lemma stored_fields_stay_nonempty_witness :
  text (mkTodo "Buy milk" true "s1" 0) <> "" /\
  sessionId (mkTodo "Buy milk" true "s1" 0) <> "".
Proof.
  apply (stored_fields_stay_nonempty Update (Sample.complete "s1") Sample.one)
    with (k := Sample.idA).
  - intros k d Hd. unfold Sample.one in Hd. cbn [todos] in Hd.
    apply lookup_singleton_Some in Hd as [_ <-]. split; vm_compute; discriminate.
  - vm_compute; reflexivity.
Defined.

(** ** How the routes compose *)

(** X15.  Create followed by Delete of the created id under the same
    session brings the state back to what it was before the Create. *)
Theorem create_then_delete_restores :
  forall (oid : string) (create del : Request) (w : World) (data : TodoData),
    z.parse todoSchema (body create) = Ok data ->
    sessionID create <> "" -> dbUp w = true -> todos w !! oid = None ->
    sessionID del = sessionID create ->
    castObjectId (params_id del) = Some oid ->
    exists r1 w1 r2,
      app_post oid create w = (Ok r1, w1) /\ status r1 = 200 /\
      app_delete del w1 = (Ok r2, w) /\ status r2 = 200.
Proof.
  intros oid create del w data Hp Hs Hup Hfresh Hsame Hc.
  set (todo := Todo.new oid data (sessionID create)).
  set (w1 := set_todos (insert oid todo.2) w).
  assert (Hl1 : todos w1 !! oid = Some todo.2) by apply lookup_insert_eq.
  assert (Hs1 : sessionId todo.2 = sessionID del) by (simpl; congruence).
  eexists _, w1, _.
  split; [exact (app_post_valid _ _ _ _ Hp Hup Hs Hfresh)|].
  split; [reflexivity|].
  assert (Hback : set_todos (delete oid) w1 = w).
  { unfold w1, set_todos. destruct w as [ts ss up co]. cbn in *.
    f_equal. now apply delete_insert_id. }
  rewrite (app_delete_owned del w1 oid todo.2 Hc Hup Hl1 Hs1), Hback.
  split; reflexivity.
Qed.

Lemma create_then_delete_restores_witness :
  exists r1 w1 r2,
    app_post Sample.idA Sample.buyMilk Sample.empty = (Ok r1, w1) /\ status r1 = 200 /\
    app_delete (Sample.remove "s1" Sample.idA) w1 = (Ok r2, Sample.empty) /\ status r2 = 200.
Proof.
  apply (create_then_delete_restores Sample.idA Sample.buyMilk
           (Sample.remove "s1" Sample.idA) Sample.empty (mkTodoData "Buy milk" None)).
  - vm_compute; reflexivity.
  - vm_compute; discriminate.
  - reflexivity.
  - vm_compute; reflexivity.
  - reflexivity.
  - vm_compute; reflexivity.
Defined.

(** X16.  After a successful Update, List under the same session shows the
    item exactly as the Update response returned it, and shows no other item
    with that id. *)
Theorem patch_then_list :
  forall (req listing : Request) (w : World) (p : TodoPatch) (oid : string) (d : TodoDoc),
    z.parse todoSchema_partial (body req) = Ok p ->
    castObjectId (params_id req) = Some oid -> dbUp w = true ->
    todos w !! oid = Some d -> sessionId d = sessionID req ->
    sessionID listing = sessionID req -> sessionID req <> "" ->
    exists r1 w1 r2 j,
      app_patch req w = (Ok r1, w1) /\ response_items r1 = [j] /\
      app_get listing w1 = (Ok r2, w1) /\ j ∈ response_items r2 /\
      forall j', j' ∈ response_items r2 -> jfield "_id" j' = Some (JStr oid) -> j' = j.
Proof.
  intros req lst w p oid d Hp Hc Hup Hl Hs Hsame Hne.
  set (d' := Todo.applyPatch p d).
  set (w1 := set_todos (insert oid d') w).
  assert (Hl1 : todos w1 !! oid = Some d') by apply lookup_insert_eq.
  assert (Hne' : sessionID lst <> "") by congruence.
  assert (Hin : Todo.toJSON (oid, d') ∈
                Todo.toJSON <$> map_to_list (filter (fun kd : string * TodoDoc =>
                                                       sessionId kd.2 = sessionID lst)
                                                    (todos w1))).
  { apply list_elem_of_fmap_2, find_elem. split; [exact Hl1|]. simpl. congruence. }
  eexists _, w1, _, (Todo.toJSON (oid, d')).
  split; [exact (app_patch_owned _ _ _ _ _ Hp Hc Hup Hl Hs)|].
  split; [reflexivity|].
  split; [exact (app_get_up lst w1 Hup Hne')|].
  rewrite response_items_array. split; [exact Hin|].
  intros j' Hj' Hid. apply list_elem_of_fmap in Hj' as ([k dk] & -> & Hk).
  apply find_elem in Hk as [Hk _]. cbn in Hid. injection Hid as ->.
  rewrite Hl1 in Hk. now injection Hk as ->.
Qed.

Lemma patch_then_list_witness :
  exists r1 w1 r2 j,
    app_patch (Sample.complete "s1") Sample.one = (Ok r1, w1) /\ response_items r1 = [j] /\
    app_get (Sample.remove "s1" "") w1 = (Ok r2, w1) /\ j ∈ response_items r2 /\
    forall j', j' ∈ response_items r2 -> jfield "_id" j' = Some (JStr Sample.idA) -> j' = j.
Proof.
  apply (patch_then_list (Sample.complete "s1") (Sample.remove "s1" "") Sample.one
           (mkTodoPatch None (Some true)) Sample.idA (mkTodo "Buy milk" false "s1" 0)).
  - vm_compute; reflexivity.
  - vm_compute; reflexivity.
  - reflexivity.
  - vm_compute; reflexivity.
  - reflexivity.
  - reflexivity.
  - vm_compute; discriminate.
Defined.

(** X17.  After a successful Delete the item is gone for its own session
    too: List no longer shows an item with that id and an Update of that id
    with a valid body answers 404. *)
Theorem delete_then_gone :
  forall (del req listing : Request) (w : World) (p : TodoPatch) (oid : string) (d : TodoDoc),
    castObjectId (params_id del) = Some oid -> dbUp w = true ->
    todos w !! oid = Some d -> sessionId d = sessionID del ->
    castObjectId (params_id req) = Some oid ->
    z.parse todoSchema_partial (body req) = Ok p ->
    exists r1 w1,
      app_delete del w = (Ok r1, w1) /\ status r1 = 200 /\
      app_patch req w1 = (Ok notFound, w1) /\
      forall r2 w2 j, app_get listing w1 = (Ok r2, w2) -> j ∈ response_items r2 ->
                      jfield "_id" j <> Some (JStr oid).
Proof.
  intros del req lst w p oid d Hc Hup Hl Hs Hc' Hp.
  set (w1 := set_todos (delete oid) w).
  assert (Hgone : todos w1 !! oid = None) by apply lookup_delete_eq.
  assert (Hf : Todo.findOne oid (sessionID req) w1 = None)
    by (unfold Todo.findOne; now rewrite Hgone).
  eexists _, w1.
  split; [exact (app_delete_owned _ _ _ _ Hc Hup Hl Hs)|].
  split; [reflexivity|].
  split; [exact (app_patch_unmatched req w1 p oid Hp Hc' Hup Hf)|].
  intros r2 w2 j Hg Hj Hid.
  destruct (app_get_items _ _ _ _ _ Hg Hj) as (k & dk & -> & Hk & _).
  cbn in Hid. injection Hid as ->. congruence.
Qed.

Lemma delete_then_gone_witness :
  exists r1 w1,
    app_delete (Sample.remove "s1" Sample.idA) Sample.one = (Ok r1, w1) /\ status r1 = 200 /\
    app_patch (Sample.complete "s1") w1 = (Ok notFound, w1) /\
    forall r2 w2 j, app_get (Sample.remove "s1" "") w1 = (Ok r2, w2) ->
                    j ∈ response_items r2 -> jfield "_id" j <> Some (JStr Sample.idA).
Proof.
  apply (delete_then_gone (Sample.remove "s1" Sample.idA) (Sample.complete "s1")
           (Sample.remove "s1" "") Sample.one (mkTodoPatch None (Some true)) Sample.idA
           (mkTodo "Buy milk" false "s1" 0)).
  - vm_compute; reflexivity.
  - reflexivity.
  - vm_compute; reflexivity.
  - reflexivity.
  - vm_compute; reflexivity.
  - vm_compute; reflexivity.
Defined.

(** ** The sweep, step by step *)


(** X20.  The schedule as written: after any number of ticks, in any
    state, every tick has run the callback, each run has printed the same
    TypeError line, and neither the sessions nor the todos have changed. *)
Theorem cron_schedule_only_logs :
  forall (ticks : list Z) (w : World),
    cron_schedule ticks w =
      (Ok (length ticks),
       {| todos := todos w; sessions := sessions w; dbUp := dbUp w;
          console := console w ++
            replicate (length ticks)
              (SweepFailed (TypeError "Promise constructor cannot be invoked without 'new'")) |}).
Proof.
  unfold cron_schedule. intros ticks. induction ticks as [|now ticks IH]; intros w.
  - cbn. rewrite app_nil_r. now destruct w.
  - cbn [schedule]. unfold bind at 1.
    change (sweep getAllSessions now w) with (cron_callback now w).
    rewrite cron_callback_inert. unfold bind. rewrite IH. unfold ret.
    cbn [length replicate todos sessions dbUp console add_console].
    now rewrite <- app_assoc.
Qed.

(** ** Which requests are left without a response *)

(** X21.  A handler rejects, sending no response, in these cases only:
    List when a session id is present and the store is down, Delete when
    the id is no ObjectId or the store is down.  Create and Update never
    reject.  *)
Theorem rejections_of_routes :
  forall (op : Operation) (req : Request) (w : World),
    (exists e, (handle op req w).1 = Err e) <->
    match op with
    | List => sessionID req <> "" /\ dbUp w = false
    | Delete => castObjectId (params_id req) = None \/ dbUp w = false
    | Create _ | Update => False
    end.
Proof.
  intros op req w. destruct op as [|oid| |]; simpl.
  - unfold app_get. case_decide as Hs.
    + simpl. split; [intros [e He]; discriminate|intros [Hne _]; congruence].
    + unfold bind, Todo.find, withStore. destruct (dbUp w); simpl.
      * split; [intros [e He]; discriminate|intros [_ Hd]; discriminate].
      * split; [auto|eauto].
  - destruct (app_post_cases oid req w) as (r & Hr & _). rewrite Hr.
    split; [intros [e He]; discriminate|contradiction].
  - destruct (app_patch_cases req w) as (r & Hr & _). rewrite Hr.
    split; [intros [e He]; discriminate|contradiction].
  - destruct (app_delete_inv req w)
      as [(Hc & ->)|[(oid & Hc & Hd & ->)|[(oid & Hc & Hup & _ & ->)
         |(oid & d & Hc & Hup & _ & _ & ->)]]]; simpl.
    + split; [auto|eauto].
    + split; [auto|eauto].
    + split; [intros [e He]; discriminate|intros [?|?]; congruence].
    + split; [intros [e He]; discriminate|intros [?|?]; congruence].
Qed.
